(** * Task Tracker CLI: a shallow embedding of [task_cli.py]

    The program is a command-line tool.  Each invocation loads the whole
    collection from [tasks.json], performs one command, and writes the whole
    collection back.  The embedding follows the source function by function:

    - JSON values as decoded by Python's [json.load] are an inductive type;
      a task is a JSON object, kept as an association list in key order;
    - the file, the clock and the record of writes form the [world], threaded
      by a small process monad in which [sys.exit(1)] is an early exit;
    - the builtins [str.strip], [str.lower] and [int] are taken through the
      interface [PyBuiltins]; an ASCII instance is given for evaluation. *)

From Stdlib Require Import ZArith List String Ascii Bool Lia.
From Stdlib Require Import Permutation Sorted.
From Stdlib Require Import Floats.SpecFloat.
Import ListNotations.

Set Warnings "-register-all".

Open Scope string_scope.
Open Scope list_scope.
Open Scope Z_scope.

(* ===================================================================== *)
(** ** JSON values and Python's view of them *)
(* ===================================================================== *)

(** What [json.load] produces: [None], [bool], [int] (unbounded), [float],
    [str], [list] and [dict] (string keys, insertion order). *)
Inductive json : Type :=
| JNull
| JBool (b : bool)
| JInt (n : Z)
| JFloat (f : spec_float)
| JStr (s : string)
| JList (items : list json)
| JDict (fields : list (string * json)).

(** A Python [dict] with string keys, in insertion order. *)
Definition dict : Type := list (string * json).

Fixpoint dict_lookup (k : string) (d : dict) : option json :=
  match d with
  | [] => None
  | (k', v) :: rest => if String.eqb k' k then Some v else dict_lookup k rest
  end.

(** [d.get(k)]: the value, or [None] when the key is absent. *)
Definition py_get (k : string) (d : dict) : json :=
  match dict_lookup k d with
  | Some v => v
  | None => JNull
  end.

(** [d.get(k, default)]. *)
Definition py_get_default (k : string) (default : json) (d : dict) : json :=
  match dict_lookup k d with
  | Some v => v
  | None => default
  end.

(** [d[k] = v]: an existing key keeps its position, a new key goes last. *)
Fixpoint dict_set (k : string) (v : json) (d : dict) : dict :=
  match d with
  | [] => [(k, v)]
  | (k', v') :: rest =>
      if String.eqb k' k then (k', v) :: rest else (k', v') :: dict_set k v rest
  end.

(** [isinstance(v, int)], with the integer it stands for.  In Python [bool]
    is a subclass of [int]: [True] counts as 1 and [False] as 0. *)
Definition as_int (v : json) : option Z :=
  match v with
  | JInt n => Some n
  | JBool b => Some (if b then 1 else 0)
  | _ => None
  end.

(** Exact comparison of a float with an integer, as Python's [==] does it. *)
Definition float_eq_int (f : spec_float) (i : Z) : bool :=
  match f with
  | S754_zero _ => i =? 0
  | S754_finite s m e =>
      let signed := if s then Z.neg m else Z.pos m in
      if 0 <=? e then signed * 2 ^ e =? i else i * 2 ^ (- e) =? signed
  | _ => false
  end.

(** [v == i] for an integer [i]. *)
Definition py_eq_int (v : json) (i : Z) : bool :=
  match v with
  | JInt n => n =? i
  | JBool b => (if b then 1 else 0) =? i
  | JFloat f => float_eq_int f i
  | _ => false
  end.

(** [v == s] for a string [s]. *)
Definition py_eq_str (v : json) (s : string) : bool :=
  match v with
  | JStr x => String.eqb x s
  | _ => false
  end.

(** The result of [a < b] between two sort keys.  Integers (and booleans)
    compare by value and strings by code point; [None], objects and operands
    of different kinds raise [TypeError].  The orders of floats and of lists
    are left out of the model. *)
Inductive comparison_result : Type :=
| Less (b : bool)
| Unorderable
| NotModelled.

Definition py_lt (a b : json) : comparison_result :=
  match as_int a, as_int b with
  | Some x, Some y => Less (x <? y)
  | _, _ =>
      match a, b with
      | JStr x, JStr y => Less (String.ltb x y)
      | JFloat _, JStr _ | JStr _, JFloat _ => Unorderable
      | JList _, JList _ => NotModelled
      | JList _, _ | _, JList _ => Unorderable
      | JFloat _, (JInt _ | JBool _ | JFloat _) => NotModelled
      | (JInt _ | JBool _), JFloat _ => NotModelled
      | _, _ => Unorderable
      end
  end.

(* ===================================================================== *)
(** ** Builtins *)
(* ===================================================================== *)

(** The three builtins the program calls on strings.  [py_int s] is [None]
    where [int(s)] raises [ValueError]. *)
Class PyBuiltins : Type := {
  py_strip : string -> string;
  py_lower : string -> string;
  py_int : string -> option Z
}.

(** [" ".join(args)]. *)
Definition join (args : list string) : string := String.concat " " args.

(** Truth value of a string: only the empty string is false. *)
Definition is_empty (s : string) : bool :=
  match s with
  | EmptyString => true
  | String _ _ => false
  end.

(** *** An ASCII instance, for evaluation

    It reads a string as ASCII text.  [str.strip] removes tab, line feed,
    vertical tab, form feed, carriage return, the four separators 28-31 and
    the space; [int] skips the same except the separators. *)

Definition strip_space (c : ascii) : bool :=
  let n := N_of_ascii c in
  (((9 <=? n) && (n <=? 13)) || ((28 <=? n) && (n <=? 32)))%N.

Definition int_space (c : ascii) : bool :=
  let n := N_of_ascii c in
  (((9 <=? n) && (n <=? 13)) || (n =? 32))%N.

Fixpoint drop_while (p : ascii -> bool) (l : list ascii) : list ascii :=
  match l with
  | [] => []
  | c :: rest => if p c then drop_while p rest else l
  end.

Definition trim (p : ascii -> bool) (l : list ascii) : list ascii :=
  rev (drop_while p (rev (drop_while p l))).

Definition ascii_strip (s : string) : string :=
  string_of_list_ascii (trim strip_space (list_ascii_of_string s)).

Definition lower_char (c : ascii) : ascii :=
  let n := N_of_ascii c in
  if ((65 <=? n) && (n <=? 90))%N then ascii_of_N (n + 32) else c.

Fixpoint ascii_lower (s : string) : string :=
  match s with
  | EmptyString => EmptyString
  | String c rest => String (lower_char c) (ascii_lower rest)
  end.

Definition digit_of (c : ascii) : option Z :=
  let n := N_of_ascii c in
  if ((48 <=? n) && (n <=? 57))%N then Some (Z.of_N n - 48) else None.

(** Decimal digits, a single underscore allowed between two digits. *)
Fixpoint digits_value (acc : Z) (after_digit : bool) (l : list ascii)
  : option Z :=
  match l with
  | [] => if after_digit then Some acc else None
  | c :: rest =>
      match digit_of c with
      | Some d => digits_value (10 * acc + d) true rest
      | None =>
          if (Ascii.eqb c "_" && after_digit)%bool
          then digits_value acc false rest
          else None
      end
  end.

Definition ascii_int (s : string) : option Z :=
  match trim int_space (list_ascii_of_string s) with
  | "-"%char :: rest => option_map Z.opp (digits_value 0 false rest)
  | "+"%char :: rest => digits_value 0 false rest
  | l => digits_value 0 false l
  end.

Definition ascii_builtins : PyBuiltins :=
  {| py_strip := ascii_strip; py_lower := ascii_lower; py_int := ascii_int |}.

(* ===================================================================== *)
(** ** The world and the process monad *)
(* ===================================================================== *)

(** [tasks.json] as [json.load] sees it: text that is not JSON, or a value. *)
Inductive document : Type :=
| Undecodable
| Decoded (v : json).

(** Writes to [tasks.json]: the bootstrap of [ensure_db_exists] and the
    whole-collection write of [save_tasks]. *)
Inductive io_event : Type :=
| Created
| Saved (tasks : list dict).

(** [file] is [None] while [tasks.json] does not exist.  [clock] is what
    [now_iso()] returns during this invocation.  [log] records the writes.
    The operating system's own failures ([OSError] on a file that exists) are
    not modelled. *)
Record world : Type := {
  file : option document;
  clock : string;
  log : list io_event
}.

Inductive unreadable : Type :=
| NotJson      (* json.JSONDecodeError *)
| NotAList     (* ValueError: expected a list *)
| CannotOpen.  (* OSError *)

(** The diagnostics after which the program calls [sys.exit(1)]. *)
Inductive error : Type :=
| Usage                      (* wrong number of arguments; prints the usage *)
| EmptyInput                 (* description cannot be empty *)
| InvalidId                  (* id must be a positive integer *)
| NotFound (task_id : Z)     (* task with ID ... not found *)
| InvalidFilter              (* list status must be one of ... *)
| StorageUnreadable (why : unreadable).

(** How a run ends: normally, by [sys.exit(1)], by an uncaught [TypeError],
    or outside the model (see [py_lt]). *)
Inductive result (A : Type) : Type :=
| Ok (a : A)
| Exit (e : error)
| TypeError
| Unmodelled.

Arguments Ok {A} a.
Arguments Exit {A} e.
Arguments TypeError {A}.
Arguments Unmodelled {A}.

Definition M (A : Type) : Type := world -> result A * world.

Definition ret {A : Type} (a : A) : M A := fun w => (Ok a, w).

Definition bind {A B : Type} (c : M A) (k : A -> M B) : M B :=
  fun w =>
    match c w with
    | (Ok a, w') => k a w'
    | (Exit e, w') => (Exit e, w')
    | (TypeError, w') => (TypeError, w')
    | (Unmodelled, w') => (Unmodelled, w')
    end.

Definition exit {A : Type} (e : error) : M A := fun w => (Exit e, w).

Notation "x <- c ;; k" := (bind c (fun x => k))
  (at level 61, c at next level, right associativity).
Notation "c ;;; k" := (bind c (fun _ => k))
  (at level 61, right associativity).

(** What the program prints on success. *)
Inductive report : Type :=
| Added (task_id : Z)
| Updated (task_id : Z)
| Deleted (task_id : Z)
| Marked (task_id : Z) (status : string)
| NoTasksFound
| Listed (shown : list dict).

(* ===================================================================== *)
(** ** Store: [ensure_db_exists], [load_tasks], [save_tasks] *)
(* ===================================================================== *)

(** [now_iso()]. *)
Definition now_iso : M string := fun w => (Ok (clock w), w).

(** Creates the file holding the empty list when it does not exist. *)
Definition ensure_db_exists : M unit :=
  fun w =>
    match file w with
    | None =>
        (Ok tt, {| file := Some (Decoded (JList []));
                   clock := clock w;
                   log := log w ++ [Created] |})
    | Some _ => (Ok tt, w)
    end.

(** [[t for t in data if isinstance(t, dict)]]. *)
Fixpoint only_dicts (data : list json) : list dict :=
  match data with
  | [] => []
  | JDict d :: rest => d :: only_dicts rest
  | _ :: rest => only_dicts rest
  end.

Definition load_tasks : M (list dict) :=
  ensure_db_exists ;;;
  fun w =>
    match file w with
    | None => (Exit (StorageUnreadable CannotOpen), w)
    | Some Undecodable => (Exit (StorageUnreadable NotJson), w)
    | Some (Decoded (JList data)) => (Ok (only_dicts data), w)
    | Some (Decoded _) => (Exit (StorageUnreadable NotAList), w)
    end.

(** Overwrites the file with the whole collection. *)
Definition save_tasks (tasks : list dict) : M unit :=
  fun w =>
    (Ok tt, {| file := Some (Decoded (JList (map JDict tasks)));
               clock := clock w;
               log := log w ++ [Saved tasks] |}).

(* ===================================================================== *)
(** ** Helpers: [next_id], [parse_id], [find_task] *)
(* ===================================================================== *)

Definition next_id (tasks : list dict) : Z :=
  let max_id :=
    fold_left
      (fun max_id t =>
         match as_int (py_get "id" t) with
         | Some tid => if tid >? max_id then tid else max_id
         | None => max_id
         end)
      tasks 0 in
  max_id + 1.

Definition parse_id `{PyBuiltins} (s : string) : M Z :=
  match py_int s with
  | Some i => if i <=? 0 then exit InvalidId else ret i
  | None => exit InvalidId
  end.

(** The first task whose id equals [task_id].  Python returns the object
    itself, and the caller then assigns to its fields: the list sees the
    change.  The model returns the index with the task, and the caller writes
    the changed task back at that index. *)
Fixpoint find_task (tasks : list dict) (task_id : Z) : option (nat * dict) :=
  match tasks with
  | [] => None
  | t :: rest =>
      if py_eq_int (py_get "id" t) task_id then Some (O, t)
      else
        match find_task rest task_id with
        | Some (i, t') => Some (S i, t')
        | None => None
        end
  end.

(** The list after the object at index [i] has been changed into [t]. *)
Fixpoint write_back (i : nat) (t : dict) (tasks : list dict) : list dict :=
  match tasks, i with
  | [], _ => []
  | _ :: rest, O => t :: rest
  | x :: rest, S j => x :: write_back j t rest
  end.

(** [not task]: true for [None] and for the empty dict. *)
Definition falsy (task : option (nat * dict)) : bool :=
  match task with
  | None => true
  | Some (_, []) => true
  | Some (_, _ :: _) => false
  end.

(* ===================================================================== *)
(** ** Commands *)
(* ===================================================================== *)

Definition new_task (tid : Z) (description ts : string) : dict :=
  [ ("id", JInt tid);
    ("description", JStr description);
    ("status", JStr "todo");
    ("createdAt", JStr ts);
    ("updatedAt", JStr ts) ].

Definition cmd_add `{PyBuiltins} (args : list string) : M report :=
  if (List.length args <? 1)%nat then exit Usage
  else
    let description := py_strip (join args) in
    if is_empty description then exit EmptyInput
    else
      tasks <- load_tasks ;;
      let tid := next_id tasks in
      ts <- now_iso ;;
      let task := new_task tid description ts in
      save_tasks (tasks ++ [task]) ;;;
      ret (Added tid).

Definition cmd_update `{PyBuiltins} (args : list string) : M report :=
  if (List.length args <? 2)%nat then exit Usage
  else
    task_id <- parse_id (hd EmptyString args) ;;
    let new_description := py_strip (join (tl args)) in
    if is_empty new_description then exit EmptyInput
    else
      tasks <- load_tasks ;;
      let task := find_task tasks task_id in
      match task with
      | Some (i, t) =>
          if falsy task then exit (NotFound task_id)
          else
            let t := dict_set "description" (JStr new_description) t in
            ts <- now_iso ;;
            let t := dict_set "updatedAt" (JStr ts) t in
            save_tasks (write_back i t tasks) ;;;
            ret (Updated task_id)
      | None => exit (NotFound task_id)
      end.

Definition cmd_delete `{PyBuiltins} (args : list string) : M report :=
  if negb (List.length args =? 1)%nat then exit Usage
  else
    task_id <- parse_id (hd EmptyString args) ;;
    tasks <- load_tasks ;;
    let before := List.length tasks in
    let tasks :=
      filter (fun t => negb (py_eq_int (py_get "id" t) task_id)) tasks in
    let after := List.length tasks in
    if (after =? before)%nat then exit (NotFound task_id)
    else
      save_tasks tasks ;;;
      ret (Deleted task_id).

Definition set_status (task : dict) (status : string) : M dict :=
  let task := dict_set "status" (JStr status) task in
  ts <- now_iso ;;
  ret (dict_set "updatedAt" (JStr ts) task).

(** The body shared by [cmd_mark_in_progress] and [cmd_mark_done], which
    differ only in the status literal. *)
Definition mark `{PyBuiltins} (status : string) (args : list string)
  : M report :=
  if negb (List.length args =? 1)%nat then exit Usage
  else
    task_id <- parse_id (hd EmptyString args) ;;
    tasks <- load_tasks ;;
    let task := find_task tasks task_id in
    match task with
    | Some (i, t) =>
        if falsy task then exit (NotFound task_id)
        else
          t <- set_status t status ;;
          save_tasks (write_back i t tasks) ;;;
          ret (Marked task_id status)
    | None => exit (NotFound task_id)
    end.

Definition cmd_mark_in_progress `{PyBuiltins} (args : list string)
  : M report := mark "in-progress" args.

Definition cmd_mark_done `{PyBuiltins} (args : list string) : M report :=
  mark "done" args.

Definition VALID_STATUSES : list string := ["todo"; "in-progress"; "done"].

(** [s in VALID_STATUSES]. *)
Definition valid_status (s : string) : bool :=
  existsb (String.eqb s) VALID_STATUSES.

(** The sort key of [cmd_list]: [x.get("id", 10**9)]. *)
Definition sort_key (t : dict) : json :=
  py_get_default "id" (JInt (10 ^ 9)) t.

(** [sorted(tasks, key=sort_key)]: a stable sort that compares keys with [<]
    only.  It is modelled by insertion from the right, where a task goes in
    front of the first task whose key is not below its own. *)
Fixpoint insert_task (t : dict) (sorted : list dict) : result (list dict) :=
  match sorted with
  | [] => Ok [t]
  | u :: rest =>
      match py_lt (sort_key u) (sort_key t) with
      | Less true =>
          match insert_task t rest with
          | Ok rest' => Ok (u :: rest')
          | other => other
          end
      | Less false => Ok (t :: u :: rest)
      | Unorderable => TypeError
      | NotModelled => Unmodelled
      end
  end.

Fixpoint sorted_by_id (tasks : list dict) : result (list dict) :=
  match tasks with
  | [] => Ok []
  | t :: rest =>
      match sorted_by_id rest with
      | Ok rest' => insert_task t rest'
      | other => other
      end
  end.

(** The argument check of [cmd_list]: the filter, [None] when absent. *)
Definition status_filter_of `{PyBuiltins} (args : list string)
  : M (option string) :=
  match args with
  | [] => ret None
  | [a] =>
      let status_filter := py_lower (py_strip a) in
      if valid_status status_filter then ret (Some status_filter)
      else exit InvalidFilter
  | _ => exit Usage
  end.

Definition cmd_list `{PyBuiltins} (args : list string) : M report :=
  tasks <- load_tasks ;;
  status_filter <- status_filter_of args ;;
  let tasks :=
    match status_filter with
    | Some f =>
        if is_empty f then tasks
        else filter (fun t => py_eq_str (py_get "status" t) f) tasks
    | None => tasks
    end in
  match tasks with
  | [] => ret NoTasksFound
  | _ =>
      fun w =>
        match sorted_by_id tasks with
        | Ok tasks_sorted => (Ok (Listed tasks_sorted), w)
        | Exit e => (Exit e, w)
        | TypeError => (TypeError, w)
        | Unmodelled => (Unmodelled, w)
        end
  end.

(** The dispatch table of [main]. *)
Inductive command : Type :=
| CmdAdd | CmdUpdate | CmdDelete | CmdMarkInProgress | CmdMarkDone | CmdList.

Definition run `{PyBuiltins} (c : command) (args : list string) : M report :=
  match c with
  | CmdAdd => cmd_add args
  | CmdUpdate => cmd_update args
  | CmdDelete => cmd_delete args
  | CmdMarkInProgress => cmd_mark_in_progress args
  | CmdMarkDone => cmd_mark_done args
  | CmdList => cmd_list args
  end.

(** *** Sample data *)

Definition empty_world : world :=
  {| file := None; clock := "2024-01-01T10:00:00"; log := [] |}.

(** A world whose file holds the document [d]. *)
Definition holding (d : document) : world :=
  {| file := Some d; clock := "2024-01-02T08:00:00"; log := [] |}.

Definition stored (tasks : list dict) (now : string) : world :=
  {| file := Some (Decoded (JList (map JDict tasks)));
     clock := now;
     log := [] |}.

Definition sample_task (tid : Z) (description status : string) : dict :=
  [ ("id", JInt tid);
    ("description", JStr description);
    ("status", JStr status);
    ("createdAt", JStr "2024-01-01T09:00:00");
    ("updatedAt", JStr "2024-01-01T09:30:00") ].

Definition sample_tasks : list dict :=
  [ sample_task 3 "Cook" "todo";
    sample_task 1 "Buy milk" "done";
    sample_task 2 "Clean" "todo" ].


(** *** Notions used to state the properties *)

(** [isinstance(v, dict)]. *)
Definition is_dict (v : json) : bool :=
  match v with
  | JDict _ => true
  | _ => false
  end.

(** [t.get("id") == task_id]: the test by which [find_task] and [cmd_delete]
    recognise the record with a given id. *)
Definition has_id (task_id : Z) (t : dict) : bool :=
  py_eq_int (py_get "id" t) task_id.

(** The integer ids present in a collection, in collection order. *)
Definition existing_ids (tasks : list dict) : list Z :=
  flat_map
    (fun t => match as_int (py_get "id" t) with Some i => [i] | None => [] end)
    tasks.

(** Python's [max(ids, default=d)]. *)
Definition max_or (d : Z) (ids : list Z) : Z :=
  match ids with
  | [] => d
  | i :: rest => fold_left Z.max rest i
  end.

(** The collection held by the file; a file that does not exist yet stands
    for the empty collection ([ensure_db_exists]). *)
Definition persisted (w : world) : document :=
  match file w with
  | None => Decoded (JList [])
  | Some d => d
  end.

(** The collections written by [save_tasks] so far. *)
Definition saves (w : world) : list (list dict) :=
  flat_map (fun e => match e with Saved tasks => [tasks] | Created => [] end)
    (log w).

(** [load_tasks] followed at once by [save_tasks]. *)
Definition load_then_save : M unit :=
  tasks <- load_tasks ;;
  save_tasks tasks.

(** One invocation of the program: a command, its arguments and the reading
    of the clock during it. *)
Definition invocation : Type := (command * list string * string)%type.

Definition invoke `{PyBuiltins} (i : invocation) (w : world)
  : result report * world :=
  let '(c, args, now) := i in
  run c args {| file := file w; clock := now; log := log w |}.

(** A sequence of invocations; each entry pairs the world an invocation
    started from with its result. *)
Fixpoint session `{PyBuiltins} (invs : list invocation) (w : world)
  : list (world * result report) :=
  match invs with
  | [] => []
  | i :: rest => (w, fst (invoke i w)) :: session rest (snd (invoke i w))
  end.

(** The tasks [load_tasks] would return. *)
Definition tasks_of (w : world) : list dict :=
  match file w with
  | Some (Decoded (JList data)) => only_dicts data
  | _ => []
  end.

(** The ids handed out by [add] during a session, in order. *)
Definition assigned_ids (s : list (world * result report)) : list Z :=
  flat_map
    (fun e => match snd e with Ok (Added tid) => [tid] | _ => [] end) s.

(** No [delete] of the session removed the record with the greatest id. *)
Definition deletes_below_max (s : list (world * result report)) : Prop :=
  Forall
    (fun e =>
       match snd e with
       | Ok (Deleted tid) => tid < next_id (tasks_of (fst e)) - 1
       | _ => True
       end) s.

(** A session that deletes the record with the greatest id, then adds. *)
Definition reuse_session : list invocation :=
  [ (CmdAdd, ["Buy milk"], "2024-01-01T10:00:00");
    (CmdAdd, ["Clean"], "2024-01-01T10:00:01");
    (CmdDelete, ["2"], "2024-01-01T10:00:02");
    (CmdAdd, ["Cook"], "2024-01-01T10:00:03") ].

(** The id token reads as a positive integer. *)
Definition positive_token `{PyBuiltins} (s : string) : Prop :=
  exists i, py_int s = Some i /\ 0 < i.

(** Nothing was saved and the persisted collection is as before. *)
Definition quiet (w w' : world) : Prop :=
  persisted w' = persisted w /\ saves w' = saves w.

(** Exactly one save happened, and the file holds what it wrote. *)
Definition saved_once (w w' : world) : Prop :=
  exists tasks,
    file w' = Some (Decoded (JList (map JDict tasks))) /\
    saves w' = saves w ++ [tasks].

(** The reports of the commands that change the collection. *)
Definition mutation (x : report) : bool :=
  match x with
  | Added _ | Updated _ | Deleted _ | Marked _ _ => true
  | NoTasksFound | Listed _ => false
  end.

(** What a run may do to the file: a mutating command that succeeds saves
    once; every other run saves nothing. *)
Definition effect (mutating : bool) (r : result report) (w w' : world)
  : Prop :=
  match r with
  | Ok x =>
      mutation x = mutating /\
      if mutating then saved_once w w' else quiet w w'
  | _ => quiet w w'
  end.

Definition mutating (c : command) : bool :=
  match c with
  | CmdList => false
  | _ => true
  end.

(** Past the argument checks a command can only fail in the store or for
    want of the record. *)
Definition late_failure (i : Z) (e : error) : Prop :=
  e = NotFound i \/ exists why, e = StorageUnreadable why.

(** *** The commands as transitions of the collection *)

(** Results that leave the collection alone. *)
Definition stays (r : result report) : Prop :=
  match r with
  | Ok x => mutation x = false
  | _ => True
  end.

(** What one invocation does to the collection, by its result. *)
Inductive transition (tasks : list dict) : result report -> list dict -> Prop :=
| T_add (tid : Z) (description ts : string) :
    tid = next_id tasks ->
    description <> EmptyString ->
    transition tasks (Ok (Added tid))
      (tasks ++ [new_task tid description ts])
| T_update (i : Z) (n : nat) (t : dict) (description ts : string) :
    0 < i ->
    find_task tasks i = Some (n, t) ->
    description <> EmptyString ->
    transition tasks (Ok (Updated i))
      (write_back n
         (dict_set "updatedAt" (JStr ts)
            (dict_set "description" (JStr description) t)) tasks)
| T_delete (i : Z) :
    0 < i ->
    existsb (has_id i) tasks = true ->
    transition tasks (Ok (Deleted i))
      (filter (fun t => negb (has_id i t)) tasks)
| T_mark (i : Z) (n : nat) (t : dict) (status ts : string) :
    0 < i ->
    find_task tasks i = Some (n, t) ->
    transition tasks (Ok (Marked i status))
      (write_back n
         (dict_set "updatedAt" (JStr ts) (dict_set "status" (JStr status) t))
         tasks)
| T_stay (r : result report) :
    stays r ->
    transition tasks r tasks.

(** At most one record answers to any id. *)
Definition unique_ids (tasks : list dict) : Prop :=
  forall i, (List.length (filter (has_id i) tasks) <= 1)%nat.

(** Every record carries an integer id. *)
Definition integer_ids (tasks : list dict) : Prop :=
  Forall (fun t => as_int (py_get "id" t) <> None) tasks.

(** The integer a record's id stands for (0 when it is not an integer). *)
Definition id_of (t : dict) : Z :=
  match as_int (py_get "id" t) with
  | Some i => i
  | None => 0
  end.

(** [t.get("status") == status]. *)
Definition has_status (status : string) (t : dict) : bool :=
  py_eq_str (py_get "status" t) status.

(** What [cmd_list] shows: the tasks printed, none after "No tasks found". *)
Definition listing (r : result report) : option (list dict) :=
  match r with
  | Ok NoTasksFound => Some []
  | Ok (Listed shown) => Some shown
  | _ => None
  end.

(** The record changed by two successive field assignments. *)
Definition assign2 (k1 : string) (v1 : json) (k2 : string) (v2 : json)
           (t : dict) : dict :=
  dict_set k2 v2 (dict_set k1 v1 t).

(** The order in which [cmd_list] shows tasks. *)
Definition id_le (a b : dict) : Prop := id_of a <= id_of b.

(** The tasks [cmd_list] goes on to show, once loaded and selected. *)
Definition show (selected : list dict) (w : world) : result report * world :=
  match selected with
  | [] => (Ok NoTasksFound, w)
  | _ :: _ =>
      match sorted_by_id selected with
      | Ok tasks_sorted => (Ok (Listed tasks_sorted), w)
      | Exit e => (Exit e, w)
      | TypeError => (TypeError, w)
      | Unmodelled => (Unmodelled, w)
      end
  end.

(** The data model of a collection built by the program itself: every
    record carries a positive integer id, and ids grow along the list. *)
Definition valid_collection (tasks : list dict) : Prop :=
  Forall (fun t => exists n, py_get "id" t = JInt n /\ 0 < n) tasks /\
  StronglySorted Z.lt (map id_of tasks).

(** A session that deletes a record below the greatest id, then adds. *)
Definition gap_session : list invocation :=
  [ (CmdAdd, ["Buy milk"], "2024-01-01T10:00:00");
    (CmdAdd, ["Clean"], "2024-01-01T10:00:01");
    (CmdDelete, ["1"], "2024-01-01T10:00:02");
    (CmdAdd, ["Cook"], "2024-01-01T10:00:03") ].

(** The scenario of the specification: two adds around a status change, a
    delete of the first task, a third add and a filtered listing. *)
Definition scenario : list invocation :=
  [ (CmdAdd, ["Buy milk"], "2024-01-01T10:00:00");
    (CmdMarkInProgress, ["1"], "2024-01-01T10:00:05");
    (CmdAdd, ["Clean"], "2024-01-01T10:00:10");
    (CmdDelete, ["1"], "2024-01-01T10:00:15");
    (CmdAdd, ["Cook"], "2024-01-01T10:00:20");
    (CmdList, ["todo"], "2024-01-01T10:00:25") ].

(* ===================================================================== *)
(** ** The entry point: [main] *)
(* ===================================================================== *)

(** The two exits of [main] itself, both after printing the usage. *)
Inductive main_exit : Type :=
| NoCommand                          (* len(sys.argv) < 2 *)
| UnknownCommand (command : string). (* command not in commands *)

(** The keys of the [commands] table. *)
Definition commands (name : string) : option command :=
  if String.eqb name "add" then Some CmdAdd
  else if String.eqb name "update" then Some CmdUpdate
  else if String.eqb name "delete" then Some CmdDelete
  else if String.eqb name "mark-in-progress" then Some CmdMarkInProgress
  else if String.eqb name "mark-done" then Some CmdMarkDone
  else if String.eqb name "list" then Some CmdList
  else None.

(** [main], on [sys.argv]: the script name, the command, its arguments. *)
Definition main `{PyBuiltins} (argv : list string) (w : world)
  : (main_exit + result report) * world :=
  match argv with
  | _ :: name :: args =>
      let command := py_lower (py_strip name) in
      match commands command with
      | Some c => (inr (fst (run c args w)), snd (run c args w))
      | None => (inl (UnknownCommand command), w)
      end
  | _ => (inl NoCommand, w)
  end.

(** *** Further notions *)

(** The failures raised while the arguments are checked. *)
Definition argument_failure (e : error) : bool :=
  match e with
  | Usage | EmptyInput | InvalidId => true
  | _ => false
  end.



(** A record as [cmd_add] builds it and the other commands keep it: the five
    fields in this order, a positive id, a description that is not empty and
    one of the three statuses. *)
Definition well_formed_record (t : dict) : Prop :=
  exists (n : Z) (description status created updated : string),
    t = [ ("id", JInt n);
          ("description", JStr description);
          ("status", JStr status);
          ("createdAt", JStr created);
          ("updatedAt", JStr updated) ] /\
    0 < n /\
    description <> EmptyString /\
    In status VALID_STATUSES.

(** The integer a record is sorted by: its id, or [10**9] without one. *)
Definition key_of (t : dict) : Z :=
  match as_int (sort_key t) with
  | Some k => k
  | None => 0
  end.

(** Ascending order of the sort keys. *)
Definition key_le (a b : dict) : Prop := key_of a <= key_of b.

(** The record is sorted under the key [k]. *)
Definition has_key (k : Z) (t : dict) : bool := key_of t =? k.

(** The world after a sequence of invocations. *)
Fixpoint replay `{PyBuiltins} (invs : list invocation) (w : world) : world :=
  match invs with
  | [] => w
  | i :: rest => replay rest (snd (invoke i w))
  end.

(** Every record has an integer id or no id at all. *)
Definition integer_keys (tasks : list dict) : Prop :=
  Forall (fun t => as_int (sort_key t) <> None) tasks.

(** Every record's id is an integer or null, and the key is present. *)
Definition null_or_integer_keys (tasks : list dict) : Prop :=
  Forall (fun t => sort_key t = JNull \/ as_int (sort_key t) <> None) tasks.

(** The timestamps of a record are strings, and the creation time is not
    after the update time (as strings, which is the order of ISO dates). *)
Definition timely (t : dict) : Prop :=
  exists created updated,
    py_get "createdAt" t = JStr created /\
    py_get "updatedAt" t = JStr updated /\
    String.leb created updated = true.

(** The clock never goes back from one invocation to a later one. *)
Definition monotone_clock (invs : list invocation) : Prop :=
  StronglySorted (fun a b => String.leb a b = true) (map snd invs).

(** The world at a later reading of the clock. *)
Definition at_time (now : string) (w : world) : world :=
  {| file := file w; clock := now; log := log w |}.

(** A collection as a hand-edited file may hold it: three records answer
    to the id 1, as the integer 1, as [true] and as the float 1.0. *)
Definition duplicate_tasks : list dict :=
  [ sample_task 1 "Buy milk" "todo";
    sample_task 2 "Clean" "todo";
    [ ("id", JBool true); ("description", JStr "Cook") ];
    [ ("id", JFloat (S754_finite false 1 0)); ("description", JStr "Iron") ] ].

(** Sample records for the edge cases of the listing. *)
Definition no_id_task : dict :=
  [ ("description", JStr "No id"); ("status", JStr "todo") ].

Definition null_id_task : dict :=
  [ ("id", JNull); ("description", JStr "Null id"); ("status", JStr "todo") ].

(* ===================================================================== *)
(** * Properties *)
(* ===================================================================== *)

(** The scenario, run: ids 1, 2 and 3 are assigned (the gap left at 1 is
    not filled), and the final listing shows the tasks that are still todo,
    ids 2 and 3. *)
Example scenario_run :
  map snd (@session ascii_builtins scenario empty_world) =
  [ Ok (Added 1);
    Ok (Marked 1 "in-progress");
    Ok (Added 2);
    Ok (Deleted 1);
    Ok (Added 3);
    Ok (Listed
          [ [ ("id", JInt 2); ("description", JStr "Clean");
              ("status", JStr "todo");
              ("createdAt", JStr "2024-01-01T10:00:10");
              ("updatedAt", JStr "2024-01-01T10:00:10") ];
            [ ("id", JInt 3); ("description", JStr "Cook");
              ("status", JStr "todo");
              ("createdAt", JStr "2024-01-01T10:00:20");
              ("updatedAt", JStr "2024-01-01T10:00:20") ] ]) ].
Proof. reflexivity. Qed.

(* ===================================================================== *)
(** ** Store: loading and saving *)
(* ===================================================================== *)

(** [load_tasks], case by case on the file. *)
Lemma load_tasks_cases (w : world) :
  load_tasks w =
  match file w with
  | None =>
      (Ok [], {| file := Some (Decoded (JList []));
                 clock := clock w;
                 log := log w ++ [Created] |})
  | Some Undecodable => (Exit (StorageUnreadable NotJson), w)
  | Some (Decoded (JList data)) => (Ok (only_dicts data), w)
  | Some (Decoded _) => (Exit (StorageUnreadable NotAList), w)
  end.
Proof.
  unfold load_tasks, bind, ensure_db_exists.
  destruct (file w) as [[|v]|] eqn:Hfile; cbn;
    try rewrite Hfile; try reflexivity.
Qed.

Lemma only_dicts_filter (data : list json) :
  map JDict (only_dicts data) = filter is_dict data.
Proof.
  induction data as [|v data IH]; [reflexivity|].
  destruct v; cbn; try exact IH.
  now rewrite IH.
Qed.

Lemma only_dicts_map (tasks : list dict) : only_dicts (map JDict tasks) = tasks.
Proof.
  induction tasks as [|t tasks IH]; cbn; [reflexivity | now rewrite IH].
Qed.

Lemma filter_all_true {A : Type} (p : A -> bool) (l : list A) :
  forallb p l = true -> filter p l = l.
Proof.
  induction l as [|x l IH]; cbn; [reflexivity|].
  intros Hall. apply andb_prop in Hall as [Hx Hl].
  rewrite Hx. now rewrite IH.
Qed.

(** A successful load returns [tasks_of] and leaves a world that loads the
    same tasks again; it writes nothing but the bootstrap. *)
Lemma load_tasks_ok (w w1 : world) (tasks : list dict) :
  load_tasks w = (Ok tasks, w1) ->
  tasks = tasks_of w /\
  clock w1 = clock w /\
  persisted w1 = persisted w /\
  saves w1 = saves w /\
  file w1 = Some (persisted w).
Proof.
  rewrite load_tasks_cases. unfold tasks_of, persisted, saves.
  destruct (file w) as [[|v]|] eqn:Hfile.
  - discriminate.
  - destruct v; try discriminate.
    intros [= <- <-]. now rewrite Hfile.
  - intros [= <- <-]. cbn. rewrite flat_map_app. cbn.
    now rewrite app_nil_r.
Qed.

(** C9.  When the document decodes as a list, [load_tasks] returns its
    elements that are objects (dicts), in document order, and drops every
    other element without an error.  When the document is not JSON, or is
    JSON but not a list, [load_tasks] ends the process with a diagnostic and
    exit status 1 and leaves the file as it is. *)
Theorem C9_load_drops_non_objects_and_fails_on_corruption (w : world) :
  (forall data, file w = Some (Decoded (JList data)) ->
     load_tasks w = (Ok (only_dicts data), w) /\
     map JDict (only_dicts data) = filter is_dict data) /\
  (file w = Some Undecodable ->
     load_tasks w = (Exit (StorageUnreadable NotJson), w)) /\
  (forall v, file w = Some (Decoded v) ->
     (forall data, v <> JList data) ->
     load_tasks w = (Exit (StorageUnreadable NotAList), w)).
Proof.
  rewrite load_tasks_cases. split; [|split].
  - intros data Hfile. rewrite Hfile. split; [reflexivity|].
    apply only_dicts_filter.
  - intros Hfile. now rewrite Hfile.
  - intros v Hfile Hv. rewrite Hfile.
    destruct v; try reflexivity.
    now destruct (Hv items).
Qed.

Lemma C9_load_witness :
  let mixed := [JInt 7; JDict [("id", JInt 1)]; JStr "x"; JDict []; JNull] in
  load_tasks (holding (Decoded (JList mixed))) =
    (Ok [[("id", JInt 1)]; []], holding (Decoded (JList mixed))) /\
  load_tasks (holding Undecodable) =
    (Exit (StorageUnreadable NotJson), holding Undecodable) /\
  load_tasks (holding (Decoded (JDict []))) =
    (Exit (StorageUnreadable NotAList), holding (Decoded (JDict []))).
Proof.
  intros mixed. split; [|split].
  - exact (proj1 (proj1 (C9_load_drops_non_objects_and_fails_on_corruption
                           (holding (Decoded (JList mixed))))
                    mixed eq_refl)).
  - exact (proj1 (proj2 (C9_load_drops_non_objects_and_fails_on_corruption
                           (holding Undecodable)))
             eq_refl).
  - refine (proj2 (proj2 (C9_load_drops_non_objects_and_fails_on_corruption
                            (holding (Decoded (JDict [])))))
              (JDict []) eq_refl _).
    intros data. discriminate.
Defined.

(** [load_then_save] rewrites the file with the objects of the document. *)
Lemma load_then_save_file (w : world) (data : list json) :
  file w = Some (Decoded (JList data)) ->
  file (snd (load_then_save w)) = Some (Decoded (JList (filter is_dict data))).
Proof.
  intros Hfile. unfold load_then_save, bind.
  rewrite load_tasks_cases, Hfile. cbn.
  now rewrite only_dicts_filter.
Qed.

(** C10, as stated, fails: loading drops the elements that are not objects,
    so saving what was loaded writes a shorter document. *)
Lemma C10_counterexample :
  let w := holding (Decoded (JList [JInt 1; JDict [("id", JInt 1)]])) in
  file (snd (load_then_save w)) =
    Some (Decoded (JList [JDict [("id", JInt 1)]])) /\
  file (snd (load_then_save w)) <> file w.
Proof.
  cbn. split; [reflexivity | discriminate].
Qed.

(** C10, amended.  For every document that decodes as a list whose elements
    are all objects, saving the result of loading it leaves the document as it
    was: same elements, same order, same fields. *)
Theorem C10_save_load_roundtrip_on_objects (w : world) (data : list json) :
  file w = Some (Decoded (JList data)) ->
  forallb is_dict data = true ->
  file (snd (load_then_save w)) = file w /\
  fst (load_then_save w) = Ok tt.
Proof.
  intros Hfile Hall. split.
  - rewrite (load_then_save_file w data Hfile), Hfile.
    now rewrite filter_all_true.
  - unfold load_then_save, bind. now rewrite load_tasks_cases, Hfile.
Qed.

Lemma C10_roundtrip_witness :
  file (snd (load_then_save (stored sample_tasks "2024-01-02T08:00:00"))) =
  file (stored sample_tasks "2024-01-02T08:00:00") /\
  fst (load_then_save (stored sample_tasks "2024-01-02T08:00:00")) = Ok tt.
Proof.
  apply (C10_save_load_roundtrip_on_objects
           (stored sample_tasks "2024-01-02T08:00:00")
           (map JDict sample_tasks)); reflexivity.
Defined.

(* ===================================================================== *)
(** ** [next_id] and [cmd_add] *)
(* ===================================================================== *)

Lemma next_id_fold (tasks : list dict) :
  next_id tasks = 1 + fold_left Z.max (existing_ids tasks) 0.
Proof.
  unfold next_id, existing_ids.
  enough (Hgen : forall a,
    fold_left
      (fun max_id t =>
         match as_int (py_get "id" t) with
         | Some tid => if tid >? max_id then tid else max_id
         | None => max_id
         end) tasks a =
    fold_left Z.max
      (flat_map
         (fun t =>
            match as_int (py_get "id" t) with Some i => [i] | None => [] end)
         tasks) a) by (rewrite Hgen; lia).
  induction tasks as [|t tasks IH]; intros a; cbn; [reflexivity|].
  rewrite fold_left_app, IH.
  destruct (as_int (py_get "id" t)) as [tid|]; cbn; [|reflexivity].
  f_equal. destruct (Z.gtb_spec tid a); lia.
Qed.

Lemma fold_max_lower_bound (ids : list Z) (a : Z) :
  a <= fold_left Z.max ids a.
Proof.
  revert a. induction ids as [|i ids IH]; intros a; cbn; [lia|].
  specialize (IH (Z.max a i)). lia.
Qed.

Lemma fold_max_upper_bound (ids : list Z) (a : Z) :
  Forall (fun i => i <= fold_left Z.max ids a) ids.
Proof.
  revert a. induction ids as [|i ids IH]; intros a; cbn; constructor.
  - pose proof (fold_max_lower_bound ids (Z.max a i)). lia.
  - apply IH.
Qed.

(** On positive ids the running maximum from 0 is Python's
    [max(ids, default=0)]. *)
Lemma fold_max_is_max_or (ids : list Z) :
  Forall (fun i => 0 < i) ids -> fold_left Z.max ids 0 = max_or 0 ids.
Proof.
  destruct ids as [|i ids]; [reflexivity|].
  intros Hpos. apply Forall_inv in Hpos. cbn in *.
  f_equal. lia.
Qed.

(** Every id present is below [next_id], and [next_id] is positive. *)
Lemma next_id_above (tasks : list dict) :
  0 < next_id tasks /\ Forall (fun i => i < next_id tasks) (existing_ids tasks).
Proof.
  rewrite next_id_fold. split.
  - pose proof (fold_max_lower_bound (existing_ids tasks) 0). lia.
  - apply Forall_impl
      with (P := fun i => i <= fold_left Z.max (existing_ids tasks) 0);
      [|apply fold_max_upper_bound].
    intros i Hi. lia.
Qed.

Lemma is_empty_false (s : string) : is_empty s = false <-> s <> EmptyString.
Proof. destruct s; cbn; split; congruence. Qed.

Lemma saves_app (w : world) (f : option document) (c : string)
      (e : io_event) :
  saves {| file := f; clock := c; log := log w ++ [e] |} =
  saves w ++ match e with Saved tasks => [tasks] | Created => [] end.
Proof.
  unfold saves. cbn. rewrite flat_map_app. cbn. now rewrite app_nil_r.
Qed.

(** [cmd_add] on a description that does not trim to empty. *)
Lemma cmd_add_run `{PyBuiltins} (args : list string) (w w1 : world)
      (tasks : list dict) :
  args <> [] ->
  py_strip (join args) <> EmptyString ->
  load_tasks w = (Ok tasks, w1) ->
  let record := new_task (next_id tasks) (py_strip (join args)) (clock w) in
  cmd_add args w =
  (Ok (Added (next_id tasks)),
   {| file := Some (Decoded (JList (map JDict (tasks ++ [record]))));
      clock := clock w;
      log := log w1 ++ [Saved (tasks ++ [record])] |}).
Proof.
  intros Hargs Hdesc Hload. cbn zeta. unfold cmd_add.
  destruct args as [|a args]; [contradiction|].
  cbn [List.length Nat.ltb Nat.leb].
  apply is_empty_false in Hdesc. rewrite Hdesc.
  unfold bind. rewrite Hload. cbn.
  apply load_tasks_ok in Hload as (_ & Hclock & _).
  now rewrite Hclock.
Qed.

(** C2.  For every collection, [add] with a description that does not trim
    to empty assigns the id 1 + the maximum of the existing ids (0 when there
    is none), appends one record at the end with that id, the trimmed
    description, status "todo" and [createdAt] = [updatedAt] = the current
    timestamp, saves, and reports that id; the records already present are
    written back as they were. *)
Theorem C2_add_appends_record `{PyBuiltins} (args : list string)
        (w w1 : world) (tasks : list dict) :
  args <> [] ->
  py_strip (join args) <> EmptyString ->
  load_tasks w = (Ok tasks, w1) ->
  let tid := 1 + fold_left Z.max (existing_ids tasks) 0 in
  let record := new_task tid (py_strip (join args)) (clock w) in
  fst (cmd_add args w) = Ok (Added tid) /\
  file (snd (cmd_add args w)) =
    Some (Decoded (JList (map JDict (tasks ++ [record])))) /\
  saves (snd (cmd_add args w)) = saves w ++ [tasks ++ [record]] /\
  (Forall (fun i => 0 < i) (existing_ids tasks) ->
   tid = 1 + max_or 0 (existing_ids tasks)) /\
  py_get "id" record = JInt tid /\
  py_get "description" record = JStr (py_strip (join args)) /\
  py_get "status" record = JStr "todo" /\
  py_get "createdAt" record = JStr (clock w) /\
  py_get "updatedAt" record = JStr (clock w).
Proof.
  intros Hargs Hdesc Hload tid record.
  pose proof (cmd_add_run args w w1 tasks Hargs Hdesc Hload) as Hrun.
  cbn zeta in Hrun. rewrite next_id_fold in Hrun.
  fold tid in Hrun. fold record in Hrun. rewrite Hrun. cbn [fst snd file].
  apply load_tasks_ok in Hload as (_ & _ & _ & Hsaves & _).
  repeat split; try reflexivity.
  - rewrite saves_app. now rewrite Hsaves.
  - intros Hpos. unfold tid. now rewrite fold_max_is_max_or.
Qed.

Lemma C2_add_witness :
  let w := stored sample_tasks "2024-01-02T08:00:00" in
  fst (@cmd_add ascii_builtins ["  Water"; "plants "] w) = Ok (Added 4) /\
  file (snd (@cmd_add ascii_builtins ["  Water"; "plants "] w)) =
    Some (Decoded (JList (map JDict
      (sample_tasks ++
       [new_task 4 "Water plants" "2024-01-02T08:00:00"])))).
Proof.
  intros w.
  pose proof (@C2_add_appends_record ascii_builtins ["  Water"; "plants "]
                w w sample_tasks) as Hadd.
  cbn zeta in Hadd.
  destruct Hadd as (Hid & Hfile & _).
  - discriminate.
  - discriminate.
  - reflexivity.
  - split; [exact Hid | exact Hfile].
Defined.

(* ===================================================================== *)
(** ** Validation: [parse_id], [find_task] and the order of the checks *)
(* ===================================================================== *)

Lemma parse_id_ok `{PyBuiltins} (s : string) (i : Z) (w : world) :
  py_int s = Some i -> 0 < i -> parse_id s w = (Ok i, w).
Proof.
  intros Hint Hpos. unfold parse_id. rewrite Hint.
  destruct (Z.leb_spec i 0); [lia | reflexivity].
Qed.

Lemma parse_id_invalid `{PyBuiltins} (s : string) (w : world) :
  ~ positive_token s -> parse_id s w = (Exit InvalidId, w).
Proof.
  intros Hneg. unfold parse_id.
  destruct (py_int s) as [i|] eqn:Hint; [|reflexivity].
  destruct (Z.leb_spec i 0); [reflexivity|].
  destruct Hneg. now exists i.
Qed.

Lemma positive_token_dec `{PyBuiltins} (s : string) :
  positive_token s \/ ~ positive_token s.
Proof.
  unfold positive_token.
  destruct (py_int s) as [i|]; [destruct (Z.lt_ge_cases 0 i)|].
  - left. now exists i.
  - right. intros (j & [= <-] & Hj). lia.
  - right. now intros (j & [=] & _).
Qed.

Lemma find_task_none (tasks : list dict) (task_id : Z) :
  find_task tasks task_id = None <-> existsb (has_id task_id) tasks = false.
Proof.
  induction tasks as [|t tasks IH]; cbn; [tauto|].
  unfold has_id at 1.
  destruct (py_eq_int (py_get "id" t) task_id); cbn.
  - split; discriminate.
  - destruct (find_task tasks task_id) as [[n u]|]; [|tauto].
    split; [discriminate|]. intros Hnone. apply IH in Hnone. discriminate.
Qed.

(** Where [find_task] finds its task: it is the first one with that id, and
    writing a task back at the index found replaces exactly that one. *)
Lemma find_task_some (tasks : list dict) (task_id : Z) (n : nat) (t : dict) :
  find_task tasks task_id = Some (n, t) ->
  exists before after,
    tasks = before ++ t :: after /\
    List.length before = n /\
    has_id task_id t = true /\
    existsb (has_id task_id) before = false /\
    forall t', write_back n t' tasks = before ++ t' :: after.
Proof.
  revert n. induction tasks as [|u tasks IH]; intros n; cbn; [discriminate|].
  destruct (py_eq_int (py_get "id" u) task_id) eqn:Hu.
  - intros [= <- <-]. now exists [], tasks.
  - destruct (find_task tasks task_id) as [[m v]|]; [|discriminate].
    intros [= <- <-].
    destruct (IH m eq_refl)
      as (before & after & -> & <- & Ht & Hbefore & Hwrite).
    exists (u :: before), after. cbn. unfold has_id at 2. rewrite Hu.
    repeat split; trivial.
    intros t'. now rewrite Hwrite.
Qed.

(** A task that was found has the key "id", so it is not the empty dict:
    the test [not task] only catches [None]. *)
Lemma found_task_truthy (tasks : list dict) (task_id : Z) (n : nat) (t : dict) :
  find_task tasks task_id = Some (n, t) -> falsy (Some (n, t)) = false.
Proof.
  intros Hfind. apply find_task_some in Hfind as (_ & _ & _ & _ & Ht & _).
  destruct t; [discriminate | reflexivity].
Qed.

Lemma filter_length_same {A : Type} (p : A -> bool) (l : list A) :
  (List.length (filter p l) =? List.length l)%nat = forallb p l.
Proof.
  induction l as [|x l IH]; cbn; [reflexivity|].
  destruct (p x); cbn; [exact IH|].
  pose proof (filter_length_le p l).
  apply Nat.eqb_neq. lia.
Qed.

Lemma forallb_negb_existsb {A : Type} (p : A -> bool) (l : list A) :
  forallb (fun x => negb (p x)) l = negb (existsb p l).
Proof.
  induction l as [|x l IH]; cbn; [reflexivity|].
  rewrite IH. now destruct (p x).
Qed.

(** *** How each command runs once its checks are known *)

Lemma cmd_add_empty `{PyBuiltins} (args : list string) (w : world) :
  args <> [] -> py_strip (join args) = EmptyString ->
  cmd_add args w = (Exit EmptyInput, w).
Proof.
  intros Hargs Hdesc. unfold cmd_add.
  destruct args; [contradiction|]. cbn [List.length Nat.ltb Nat.leb].
  now rewrite Hdesc.
Qed.

Lemma cmd_update_invalid `{PyBuiltins} (tok : string) (rest : list string)
      (w : world) :
  rest <> [] -> ~ positive_token tok ->
  cmd_update (tok :: rest) w = (Exit InvalidId, w).
Proof.
  intros Hrest Htok. unfold cmd_update.
  destruct rest; [contradiction|]. cbn [List.length Nat.ltb Nat.leb hd].
  unfold bind. now rewrite parse_id_invalid.
Qed.

Lemma cmd_update_empty `{PyBuiltins} (tok : string) (rest : list string)
      (i : Z) (w : world) :
  rest <> [] -> py_int tok = Some i -> 0 < i ->
  py_strip (join rest) = EmptyString ->
  cmd_update (tok :: rest) w = (Exit EmptyInput, w).
Proof.
  intros Hrest Hint Hpos Hdesc. unfold cmd_update.
  destruct rest; [contradiction|]. cbn [List.length Nat.ltb Nat.leb hd tl].
  unfold bind. rewrite (parse_id_ok tok i w Hint Hpos).
  now rewrite Hdesc.
Qed.

Lemma cmd_update_checked `{PyBuiltins} (tok : string) (rest : list string)
      (i : Z) (w w1 : world) (tasks : list dict) :
  rest <> [] -> py_int tok = Some i -> 0 < i ->
  py_strip (join rest) <> EmptyString ->
  load_tasks w = (Ok tasks, w1) ->
  cmd_update (tok :: rest) w =
  match find_task tasks i with
  | Some (n, t) =>
      let t' :=
        dict_set "updatedAt" (JStr (clock w))
          (dict_set "description" (JStr (py_strip (join rest))) t) in
      (Ok (Updated i),
       {| file := Some (Decoded (JList (map JDict (write_back n t' tasks))));
          clock := clock w;
          log := log w1 ++ [Saved (write_back n t' tasks)] |})
  | None => (Exit (NotFound i), w1)
  end.
Proof.
  intros Hrest Hint Hpos Hdesc Hload. unfold cmd_update.
  destruct rest; [contradiction|]. cbn [List.length Nat.ltb Nat.leb hd tl].
  unfold bind. rewrite (parse_id_ok tok i w Hint Hpos).
  apply is_empty_false in Hdesc. rewrite Hdesc, Hload.
  apply load_tasks_ok in Hload as (_ & Hclock & _).
  destruct (find_task tasks i) as [[n t]|] eqn:Hfind; [|reflexivity].
  rewrite (found_task_truthy tasks i n t Hfind). cbn.
  now rewrite Hclock.
Qed.

Lemma cmd_delete_invalid `{PyBuiltins} (tok : string) (w : world) :
  ~ positive_token tok -> cmd_delete [tok] w = (Exit InvalidId, w).
Proof.
  intros Htok. unfold cmd_delete. cbn [List.length Nat.eqb negb hd].
  unfold bind. now rewrite parse_id_invalid.
Qed.

Lemma cmd_delete_checked `{PyBuiltins} (tok : string) (i : Z) (w w1 : world)
      (tasks : list dict) :
  py_int tok = Some i -> 0 < i ->
  load_tasks w = (Ok tasks, w1) ->
  cmd_delete [tok] w =
  if existsb (has_id i) tasks then
    let kept := filter (fun t => negb (has_id i t)) tasks in
    (Ok (Deleted i),
     {| file := Some (Decoded (JList (map JDict kept)));
        clock := clock w;
        log := log w1 ++ [Saved kept] |})
  else (Exit (NotFound i), w1).
Proof.
  intros Hint Hpos Hload. unfold cmd_delete. cbn [List.length Nat.eqb negb hd].
  unfold bind. rewrite (parse_id_ok tok i w Hint Hpos), Hload.
  fold (has_id i). rewrite filter_length_same.
  change (fun t => negb (py_eq_int (py_get "id" t) i))
    with (fun t => negb (has_id i t)).
  rewrite forallb_negb_existsb.
  apply load_tasks_ok in Hload as (_ & Hclock & _).
  destruct (existsb (has_id i) tasks); cbn; [|reflexivity].
  now rewrite Hclock.
Qed.

Lemma mark_invalid `{PyBuiltins} (status tok : string) (w : world) :
  ~ positive_token tok -> mark status [tok] w = (Exit InvalidId, w).
Proof.
  intros Htok. unfold mark. cbn [List.length Nat.eqb negb hd].
  unfold bind. now rewrite parse_id_invalid.
Qed.

Lemma mark_checked `{PyBuiltins} (status tok : string) (i : Z) (w w1 : world)
      (tasks : list dict) :
  py_int tok = Some i -> 0 < i ->
  load_tasks w = (Ok tasks, w1) ->
  mark status [tok] w =
  match find_task tasks i with
  | Some (n, t) =>
      let t' :=
        dict_set "updatedAt" (JStr (clock w))
          (dict_set "status" (JStr status) t) in
      (Ok (Marked i status),
       {| file := Some (Decoded (JList (map JDict (write_back n t' tasks))));
          clock := clock w;
          log := log w1 ++ [Saved (write_back n t' tasks)] |})
  | None => (Exit (NotFound i), w1)
  end.
Proof.
  intros Hint Hpos Hload. unfold mark. cbn [List.length Nat.eqb negb hd].
  unfold bind. rewrite (parse_id_ok tok i w Hint Hpos), Hload.
  apply load_tasks_ok in Hload as (_ & Hclock & _).
  destruct (find_task tasks i) as [[n t]|] eqn:Hfind; [|reflexivity].
  rewrite (found_task_truthy tasks i n t Hfind). cbn.
  now rewrite Hclock.
Qed.

(** *** The failures left once the arguments have passed their checks *)

Lemma load_tasks_exit (w w1 : world) (r : result (list dict)) :
  load_tasks w = (r, w1) ->
  match r with
  | Ok _ => True
  | Exit e => exists why, e = StorageUnreadable why
  | TypeError | Unmodelled => False
  end.
Proof.
  rewrite load_tasks_cases.
  destruct (file w) as [[|[]]|]; intros [= <- _]; trivial; now eexists.
Qed.

Lemma late_failure_kind (i : Z) (e : error) :
  late_failure i e -> e <> InvalidId /\ e <> EmptyInput.
Proof.
  intros [->|[why ->]]; split; discriminate.
Qed.

Lemma cmd_add_checked_exit `{PyBuiltins} (args : list string) (w : world) :
  args <> [] -> py_strip (join args) <> EmptyString ->
  forall e, fst (cmd_add args w) = Exit e ->
  e <> InvalidId /\ e <> EmptyInput.
Proof.
  intros Hargs Hdesc e.
  destruct (load_tasks w) as [r w1] eqn:Hload.
  pose proof (load_tasks_exit w w1 r Hload) as Hkind.
  destruct r as [tasks|e'| |]; try contradiction.
  - now rewrite (cmd_add_run args w w1 tasks).
  - unfold cmd_add. destruct args; [contradiction|].
    cbn [List.length Nat.ltb Nat.leb].
    apply is_empty_false in Hdesc. rewrite Hdesc.
    unfold bind. rewrite Hload. cbn. intros [= <-].
    destruct Hkind as [why ->]. split; discriminate.
Qed.

Lemma cmd_update_checked_exit `{PyBuiltins} (tok : string)
      (rest : list string) (i : Z) (w : world) :
  rest <> [] -> py_int tok = Some i -> 0 < i ->
  py_strip (join rest) <> EmptyString ->
  forall e, fst (cmd_update (tok :: rest) w) = Exit e ->
  e <> InvalidId /\ e <> EmptyInput.
Proof.
  intros Hrest Hint Hpos Hdesc e Hexit. apply (late_failure_kind i).
  revert Hexit.
  destruct (load_tasks w) as [r w1] eqn:Hload.
  pose proof (load_tasks_exit w w1 r Hload) as Hkind.
  destruct r as [tasks|e'| |]; try contradiction.
  - rewrite (cmd_update_checked tok rest i w w1 tasks); trivial.
    destruct (find_task tasks i) as [[n t]|]; cbn; [discriminate|].
    intros [= <-]. now left.
  - unfold cmd_update. destruct rest; [contradiction|].
    cbn [List.length Nat.ltb Nat.leb hd tl].
    unfold bind. rewrite (parse_id_ok tok i w Hint Hpos).
    apply is_empty_false in Hdesc. rewrite Hdesc, Hload. cbn.
    intros [= <-]. now right.
Qed.

Lemma cmd_delete_checked_exit `{PyBuiltins} (tok : string) (i : Z)
      (w : world) :
  py_int tok = Some i -> 0 < i ->
  forall e, fst (cmd_delete [tok] w) = Exit e ->
  e <> InvalidId /\ e <> EmptyInput.
Proof.
  intros Hint Hpos e Hexit. apply (late_failure_kind i).
  revert Hexit.
  destruct (load_tasks w) as [r w1] eqn:Hload.
  pose proof (load_tasks_exit w w1 r Hload) as Hkind.
  destruct r as [tasks|e'| |]; try contradiction.
  - rewrite (cmd_delete_checked tok i w w1 tasks); trivial.
    destruct (existsb (has_id i) tasks); cbn; [discriminate|].
    intros [= <-]. now left.
  - unfold cmd_delete, bind. cbn [List.length Nat.eqb negb hd].
    rewrite (parse_id_ok tok i w Hint Hpos), Hload. cbn.
    intros [= <-]. now right.
Qed.

Lemma mark_checked_exit `{PyBuiltins} (status tok : string) (i : Z)
      (w : world) :
  py_int tok = Some i -> 0 < i ->
  forall e, fst (mark status [tok] w) = Exit e ->
  e <> InvalidId /\ e <> EmptyInput.
Proof.
  intros Hint Hpos e Hexit. apply (late_failure_kind i).
  revert Hexit.
  destruct (load_tasks w) as [r w1] eqn:Hload.
  pose proof (load_tasks_exit w w1 r Hload) as Hkind.
  destruct r as [tasks|e'| |]; try contradiction.
  - rewrite (mark_checked status tok i w w1 tasks); trivial.
    destruct (find_task tasks i) as [[n t]|]; cbn; [discriminate|].
    intros [= <-]. now left.
  - unfold mark, bind. cbn [List.length Nat.eqb negb hd].
    rewrite (parse_id_ok tok i w Hint Hpos), Hload. cbn.
    intros [= <-]. now right.
Qed.

(** C3, as stated, fails for [update]: the id token is checked first, so a
    description that trims to empty is reported as [InvalidId] when the token
    is not a positive integer; and the description is checked before the
    lookup, so with a valid token and no such record the failure is
    [EmptyInput], not [NotFound]. *)
Lemma C3_counterexample :
  @py_strip ascii_builtins (join ["   "]) = EmptyString /\
  fst (@cmd_update ascii_builtins ["abc"; "   "] empty_world)
    = Exit InvalidId /\
  fst (@cmd_update ascii_builtins ["abc"; "   "] empty_world)
    <> Exit EmptyInput /\
  @py_int ascii_builtins "5" = Some 5 /\
  existsb (has_id 5) (tasks_of empty_world) = false /\
  fst (@cmd_update ascii_builtins ["5"; "   "] empty_world)
    <> Exit (NotFound 5).
Proof.
  repeat split; try reflexivity; cbv; discriminate.
Qed.

(** C3, amended.  [add] fails with [EmptyInput] exactly when the description
    trims to empty.  [update], [delete] and the status commands fail with
    [InvalidId] exactly when the id token is not a positive integer.
    [update] fails with [EmptyInput] exactly when the id token is a positive
    integer and the description trims to empty.  Given a valid id token (and,
    for [update], a description that does not trim to empty) and a collection
    that loads, they fail with [NotFound] exactly when no record of the
    collection has that id. *)
Theorem C3_failure_conditions `{PyBuiltins} (w : world) :
  (forall args, args <> [] ->
     (fst (cmd_add args w) = Exit EmptyInput
        <-> py_strip (join args) = EmptyString)) /\
  (forall tok rest, rest <> [] ->
     (fst (cmd_update (tok :: rest) w) = Exit InvalidId
        <-> ~ positive_token tok) /\
     (fst (cmd_update (tok :: rest) w) = Exit EmptyInput
        <-> positive_token tok /\ py_strip (join rest) = EmptyString) /\
     (forall i tasks w1,
        py_int tok = Some i -> 0 < i -> py_strip (join rest) <> EmptyString ->
        load_tasks w = (Ok tasks, w1) ->
        (fst (cmd_update (tok :: rest) w) = Exit (NotFound i)
           <-> existsb (has_id i) tasks = false))) /\
  (forall tok,
     (fst (cmd_delete [tok] w) = Exit InvalidId <-> ~ positive_token tok) /\
     (forall i tasks w1,
        py_int tok = Some i -> 0 < i -> load_tasks w = (Ok tasks, w1) ->
        (fst (cmd_delete [tok] w) = Exit (NotFound i)
           <-> existsb (has_id i) tasks = false))) /\
  (forall status tok,
     (fst (mark status [tok] w) = Exit InvalidId <-> ~ positive_token tok) /\
     (forall i tasks w1,
        py_int tok = Some i -> 0 < i -> load_tasks w = (Ok tasks, w1) ->
        (fst (mark status [tok] w) = Exit (NotFound i)
           <-> existsb (has_id i) tasks = false))).
Proof.
  split; [|split; [|split]].
  - (* add *)
    intros args Hargs. split; [|now intros; rewrite cmd_add_empty].
    intros Hexit.
    destruct (string_dec (py_strip (join args)) EmptyString) as [|Hdesc];
      [assumption|].
    now destruct (cmd_add_checked_exit args w Hargs Hdesc _ Hexit).
  - (* update *)
    intros tok rest Hrest. split; [|split].
    + split; [|now intros; rewrite cmd_update_invalid].
      intros Hexit (i & Hint & Hpos).
      destruct (string_dec (py_strip (join rest)) EmptyString) as [Hdesc|Hdesc].
      * now rewrite (cmd_update_empty tok rest i w) in Hexit.
      * now destruct
          (cmd_update_checked_exit tok rest i w Hrest Hint Hpos Hdesc _ Hexit).
    + split.
      * intros Hexit.
        destruct (positive_token_dec tok) as [Htok|Htok];
          [|now rewrite cmd_update_invalid in Hexit].
        split; [assumption|]. destruct Htok as (i & Hint & Hpos).
        destruct (string_dec (py_strip (join rest)) EmptyString) as [|Hdesc];
          [assumption|].
        now destruct
          (cmd_update_checked_exit tok rest i w Hrest Hint Hpos Hdesc _ Hexit).
      * intros [(i & Hint & Hpos) Hdesc].
        now rewrite (cmd_update_empty tok rest i w).
    + intros i tasks w1 Hint Hpos Hdesc Hload.
      rewrite (cmd_update_checked tok rest i w w1 tasks); trivial.
      rewrite <- find_task_none.
      destruct (find_task tasks i) as [[n t]|]; cbn; split;
        try discriminate; reflexivity.
  - (* delete *)
    intros tok. split.
    + split; [|now intros; rewrite cmd_delete_invalid].
      intros Hexit (i & Hint & Hpos).
      now destruct (cmd_delete_checked_exit tok i w Hint Hpos _ Hexit).
    + intros i tasks w1 Hint Hpos Hload.
      rewrite (cmd_delete_checked tok i w w1 tasks); trivial.
      destruct (existsb (has_id i) tasks); cbn; split;
        try discriminate; reflexivity.
  - (* status change *)
    intros status tok. split.
    + split; [|now intros; rewrite mark_invalid].
      intros Hexit (i & Hint & Hpos).
      now destruct (mark_checked_exit status tok i w Hint Hpos _ Hexit).
    + intros i tasks w1 Hint Hpos Hload.
      rewrite (mark_checked status tok i w w1 tasks); trivial.
      rewrite <- find_task_none.
      destruct (find_task tasks i) as [[n t]|]; cbn; split;
        try discriminate; reflexivity.
Qed.

Lemma C3_failure_conditions_witness :
  let w := stored sample_tasks "2024-01-02T08:00:00" in
  fst (@cmd_add ascii_builtins [" "; " "] w) = Exit EmptyInput /\
  fst (@cmd_update ascii_builtins ["0"; "x"] w) = Exit InvalidId /\
  fst (@cmd_update ascii_builtins ["2"; " "] w) = Exit EmptyInput /\
  fst (@cmd_update ascii_builtins ["7"; "x"] w) = Exit (NotFound 7) /\
  fst (@cmd_delete ascii_builtins ["7"] w) = Exit (NotFound 7) /\
  fst (@mark ascii_builtins "done" ["-1"] w) = Exit InvalidId.
Proof.
  intros w.
  destruct (@C3_failure_conditions ascii_builtins w)
    as (Hadd & Hupdate & Hdelete & Hmark).
  split; [|split; [|split; [|split; [|split]]]].
  - apply (Hadd [" "; " "]); [discriminate | reflexivity].
  - apply (Hupdate "0" ["x"]); [discriminate|].
    intros (i & [= <-] & Hpos). discriminate.
  - apply (Hupdate "2" [" "]); [discriminate|].
    split; [|reflexivity]. exists 2. split; reflexivity.
  - refine (proj2 (proj2 (proj2 (Hupdate "7" ["x"] _))
                     7 sample_tasks w eq_refl eq_refl _ eq_refl) eq_refl);
      discriminate.
  - exact (proj2 (proj2 (Hdelete "7") 7 sample_tasks w eq_refl eq_refl eq_refl)
             eq_refl).
  - apply (Hmark "done" "-1").
    intros (i & [= <-] & Hpos). discriminate.
Defined.

(* ===================================================================== *)
(** ** Atomicity: a command saves once or not at all *)
(* ===================================================================== *)

Lemma quiet_refl (w : world) : quiet w w.
Proof. now split. Qed.

Lemma load_quiet (w w1 : world) (r : result (list dict)) :
  load_tasks w = (r, w1) -> quiet w w1.
Proof.
  rewrite load_tasks_cases. unfold quiet, persisted.
  destruct (file w) as [[|v]|] eqn:Hfile.
  - intros [= _ <-]. now rewrite Hfile.
  - destruct v; intros [= _ <-]; now rewrite Hfile.
  - intros [= _ <-]. split; [reflexivity|].
    now rewrite saves_app, app_nil_r.
Qed.

Lemma save_after_load (w w1 : world) (r : result (list dict))
      (tasks : list dict) (c : string) :
  load_tasks w = (r, w1) ->
  saved_once w {| file := Some (Decoded (JList (map JDict tasks)));
                  clock := c;
                  log := log w1 ++ [Saved tasks] |}.
Proof.
  intros Hload. apply load_quiet in Hload as [_ Hsaves].
  exists tasks. split; [reflexivity|].
  now rewrite saves_app, Hsaves.
Qed.

Lemma parse_id_world `{PyBuiltins} (s : string) (w w' : world)
      (r : result Z) :
  parse_id s w = (r, w') -> w' = w.
Proof.
  unfold parse_id, exit, ret.
  destruct (py_int s) as [i|]; [destruct (i <=? 0)|]; now intros [= _ <-].
Qed.

Lemma status_filter_of_world `{PyBuiltins} (args : list string)
      (w w' : world) (r : result (option string)) :
  status_filter_of args w = (r, w') -> w' = w.
Proof.
  unfold status_filter_of, exit, ret.
  destruct args as [|a [|b args]];
    [|destruct (valid_status (py_lower (py_strip a)))|];
    now intros [= _ <-].
Qed.

Lemma parse_id_positive `{PyBuiltins} (s : string) (w w' : world) (i : Z) :
  parse_id s w = (Ok i, w') -> 0 < i.
Proof.
  unfold parse_id, exit, ret.
  destruct (py_int s) as [j|]; [destruct (Z.leb_spec j 0)|];
    intros Hparse; inversion Hparse; subst; assumption.
Qed.

(** Case analysis on every test a command makes, down to its return. *)
Ltac run_cases Hrun :=
  repeat match type of Hrun with
         | context [match ?x with _ => _ end] => destruct x eqn:?
         end;
  inversion Hrun; subst; clear Hrun;
  repeat match goal with
         | Hparse : parse_id _ _ = (Ok _, _) |- _ =>
             pose proof (parse_id_positive _ _ _ _ Hparse);
             apply parse_id_world in Hparse; subst
         | Hparse : parse_id _ _ = _ |- _ =>
             apply parse_id_world in Hparse; subst
         | Hfilter : status_filter_of _ _ = _ |- _ =>
             apply status_filter_of_world in Hfilter; subst
         end.

Ltac settle_effect :=
  cbn [effect]; try (split; [reflexivity|]);
  first
    [ apply quiet_refl
    | eapply load_quiet; eassumption
    | eapply save_after_load; eassumption ].

Lemma cmd_add_effect `{PyBuiltins} (args : list string) (w w' : world)
      (r : result report) :
  cmd_add args w = (r, w') -> effect true r w w'.
Proof.
  unfold cmd_add, bind, exit, ret, now_iso, save_tasks.
  intros Hrun. run_cases Hrun; settle_effect.
Qed.

Lemma cmd_update_effect `{PyBuiltins} (args : list string) (w w' : world)
      (r : result report) :
  cmd_update args w = (r, w') -> effect true r w w'.
Proof.
  unfold cmd_update, bind, exit, ret, now_iso, save_tasks.
  intros Hrun. run_cases Hrun; settle_effect.
Qed.

Lemma cmd_delete_effect `{PyBuiltins} (args : list string) (w w' : world)
      (r : result report) :
  cmd_delete args w = (r, w') -> effect true r w w'.
Proof.
  unfold cmd_delete, bind, exit, ret, save_tasks.
  intros Hrun. run_cases Hrun; settle_effect.
Qed.

Lemma mark_effect `{PyBuiltins} (status : string) (args : list string)
      (w w' : world) (r : result report) :
  mark status args w = (r, w') -> effect true r w w'.
Proof.
  unfold mark, set_status, bind, exit, ret, now_iso, save_tasks.
  intros Hrun. run_cases Hrun; settle_effect.
Qed.

Lemma cmd_list_effect `{PyBuiltins} (args : list string) (w w' : world)
      (r : result report) :
  cmd_list args w = (r, w') -> effect false r w w'.
Proof.
  unfold cmd_list, bind, exit, ret.
  intros Hrun. run_cases Hrun; settle_effect.
Qed.

Lemma run_effect `{PyBuiltins} (c : command) (args : list string)
      (w w' : world) (r : result report) :
  run c args w = (r, w') -> effect (mutating c) r w w'.
Proof.
  destruct c; cbn [run mutating].
  - apply cmd_add_effect.
  - apply cmd_update_effect.
  - apply cmd_delete_effect.
  - apply mark_effect.
  - apply mark_effect.
  - apply cmd_list_effect.
Qed.

(** C4.  Whatever the command and its arguments, a run that fails (with
    [EmptyInput], [InvalidId], [NotFound], [InvalidFilter] or any other
    failure) performs no save and leaves the persisted collection as it was;
    a mutating command that succeeds performs exactly one save, of the whole
    collection. *)
Theorem C4_failure_saves_nothing `{PyBuiltins} (c : command)
        (args : list string) (w : world) :
  ((forall x, fst (run c args w) <> Ok x) ->
   persisted (snd (run c args w)) = persisted w /\
   saves (snd (run c args w)) = saves w) /\
  (forall x, fst (run c args w) = Ok x -> mutating c = true ->
   exists tasks,
     file (snd (run c args w)) = Some (Decoded (JList (map JDict tasks))) /\
     saves (snd (run c args w)) = saves w ++ [tasks]).
Proof.
  destruct (run c args w) as [r w'] eqn:Hrun. cbn [fst snd].
  apply run_effect in Hrun. split.
  - intros Hfail. destruct r as [x| | |]; cbn [effect] in Hrun;
      [now destruct (Hfail x) | exact Hrun ..].
  - intros x -> Hmut. cbn [effect] in Hrun. rewrite Hmut in Hrun.
    exact (proj2 Hrun).
Qed.

Lemma C4_failure_witness :
  let w := stored sample_tasks "2024-01-02T08:00:00" in
  (persisted (snd (@run ascii_builtins CmdDelete ["9"] w)) = persisted w /\
   saves (snd (@run ascii_builtins CmdDelete ["9"] w)) = saves w) /\
  (persisted (snd (@run ascii_builtins CmdUpdate ["2"; " "] empty_world))
     = persisted empty_world /\
   saves (snd (@run ascii_builtins CmdUpdate ["2"; " "] empty_world))
     = saves empty_world) /\
  exists tasks,
    file (snd (@run ascii_builtins CmdMarkDone ["2"] w))
      = Some (Decoded (JList (map JDict tasks))) /\
    saves (snd (@run ascii_builtins CmdMarkDone ["2"] w)) = saves w ++ [tasks].
Proof.
  intros w. split; [|split].
  - apply (proj1 (@C4_failure_saves_nothing ascii_builtins CmdDelete ["9"] w)).
    intros x. discriminate.
  - apply (proj1 (@C4_failure_saves_nothing ascii_builtins CmdUpdate
                    ["2"; " "] empty_world)).
    intros x. discriminate.
  - apply (proj2 (@C4_failure_saves_nothing ascii_builtins CmdMarkDone ["2"] w)
             (Marked 2 "done")); reflexivity.
Defined.

(* ===================================================================== *)
(** ** Field updates: [cmd_update] and [set_status] *)
(* ===================================================================== *)

Lemma dict_lookup_set_same (k : string) (v : json) (d : dict) :
  dict_lookup k (dict_set k v d) = Some v.
Proof.
  induction d as [|[k' v'] d IH]; cbn.
  - now rewrite String.eqb_refl.
  - destruct (String.eqb k' k) eqn:Hk; cbn; rewrite Hk;
      [reflexivity | exact IH].
Qed.

Lemma dict_lookup_set_other (k k' : string) (v : json) (d : dict) :
  k' <> k -> dict_lookup k' (dict_set k v d) = dict_lookup k' d.
Proof.
  intros Hneq. induction d as [|[k0 v0] d IH]; cbn.
  - destruct (String.eqb_spec k k'); [congruence | reflexivity].
  - destruct (String.eqb_spec k0 k) as [->|Hk0]; cbn.
    + destruct (String.eqb_spec k k'); [congruence | reflexivity].
    + now rewrite IH.
Qed.

Lemma py_get_set_same (k : string) (v : json) (d : dict) :
  py_get k (dict_set k v d) = v.
Proof. unfold py_get. now rewrite dict_lookup_set_same. Qed.

Lemma py_get_set_other (k k' : string) (v : json) (d : dict) :
  k' <> k -> py_get k' (dict_set k v d) = py_get k' d.
Proof. intros Hneq. unfold py_get. now rewrite dict_lookup_set_other. Qed.

(** Assigning to a field keeps the keys and their order, except that a key
    that was absent is added last. *)
Lemma dict_set_keys (k : string) (v : json) (d : dict) :
  map fst (dict_set k v d) =
  if existsb (String.eqb k) (map fst d) then map fst d else map fst d ++ [k].
Proof.
  induction d as [|[k' v'] d IH]; cbn; [reflexivity|].
  rewrite (String.eqb_sym k k').
  destruct (String.eqb k' k); cbn; [reflexivity|].
  rewrite IH. now destruct (existsb (String.eqb k) (map fst d)).
Qed.

Lemma assign2_frame (k1 k2 k : string) (v1 v2 : json) (t : dict) :
  k <> k1 -> k <> k2 ->
  dict_lookup k (assign2 k1 v1 k2 v2 t) = dict_lookup k t.
Proof.
  intros H1 H2. unfold assign2.
  now rewrite !dict_lookup_set_other.
Qed.

Lemma existsb_found (tasks : list dict) (i : Z) :
  existsb (has_id i) tasks = true ->
  exists n t, find_task tasks i = Some (n, t).
Proof.
  intros Hex. destruct (find_task tasks i) as [[n t]|] eqn:Hfind.
  - now exists n, t.
  - apply find_task_none in Hfind. congruence.
Qed.

(** C5.  In a collection that holds a record with the given id, a successful
    [update] changes the description and [updatedAt] of that record (the
    first with that id) and nothing else, and a successful status change
    changes its status and [updatedAt] and nothing else: the id, [createdAt]
    and every other field of the target are as before, and so are all other
    records and the order of the collection. *)
Theorem C5_update_and_status_touch_only_target `{PyBuiltins} (tok : string)
        (i : Z) (w w1 : world) (tasks : list dict) :
  py_int tok = Some i -> 0 < i ->
  load_tasks w = (Ok tasks, w1) ->
  existsb (has_id i) tasks = true ->
  exists before t after,
    tasks = before ++ t :: after /\
    has_id i t = true /\
    existsb (has_id i) before = false /\
    (forall rest, rest <> [] -> py_strip (join rest) <> EmptyString ->
       let t' := assign2 "description" (JStr (py_strip (join rest)))
                         "updatedAt" (JStr (clock w)) t in
       fst (cmd_update (tok :: rest) w) = Ok (Updated i) /\
       file (snd (cmd_update (tok :: rest) w)) =
         Some (Decoded (JList (map JDict (before ++ t' :: after)))) /\
       py_get "description" t' = JStr (py_strip (join rest)) /\
       py_get "updatedAt" t' = JStr (clock w) /\
       py_get "id" t' = py_get "id" t /\
       py_get "status" t' = py_get "status" t /\
       py_get "createdAt" t' = py_get "createdAt" t /\
       (forall k, k <> "description" -> k <> "updatedAt" ->
          dict_lookup k t' = dict_lookup k t)) /\
    (forall status,
       let t' := assign2 "status" (JStr status)
                         "updatedAt" (JStr (clock w)) t in
       fst (mark status [tok] w) = Ok (Marked i status) /\
       file (snd (mark status [tok] w)) =
         Some (Decoded (JList (map JDict (before ++ t' :: after)))) /\
       py_get "status" t' = JStr status /\
       py_get "updatedAt" t' = JStr (clock w) /\
       py_get "id" t' = py_get "id" t /\
       py_get "description" t' = py_get "description" t /\
       py_get "createdAt" t' = py_get "createdAt" t /\
       (forall k, k <> "status" -> k <> "updatedAt" ->
          dict_lookup k t' = dict_lookup k t)).
Proof.
  intros Hint Hpos Hload Hex.
  destruct (existsb_found tasks i Hex) as (n & t & Hfind).
  destruct (find_task_some tasks i n t Hfind)
    as (before & after & Htasks & _ & Ht & Hbefore & Hwrite).
  exists before, t, after. repeat split; trivial.
  - rewrite (cmd_update_checked tok rest i w w1 tasks); trivial.
    now rewrite Hfind.
  - rewrite (cmd_update_checked tok rest i w w1 tasks); trivial.
    rewrite Hfind. cbn [snd file]. now rewrite Hwrite.
  - unfold assign2. rewrite py_get_set_other by discriminate.
    apply py_get_set_same.
  - apply py_get_set_same.
  - unfold assign2. now rewrite !py_get_set_other by discriminate.
  - unfold assign2. now rewrite !py_get_set_other by discriminate.
  - unfold assign2. now rewrite !py_get_set_other by discriminate.
  - intros k Hk1 Hk2. now apply assign2_frame.
  - rewrite (mark_checked status tok i w w1 tasks); trivial.
    now rewrite Hfind.
  - rewrite (mark_checked status tok i w w1 tasks); trivial.
    rewrite Hfind. cbn [snd file]. now rewrite Hwrite.
  - unfold assign2. rewrite py_get_set_other by discriminate.
    apply py_get_set_same.
  - apply py_get_set_same.
  - unfold assign2. now rewrite !py_get_set_other by discriminate.
  - unfold assign2. now rewrite !py_get_set_other by discriminate.
  - unfold assign2. now rewrite !py_get_set_other by discriminate.
  - intros k Hk1 Hk2. now apply assign2_frame.
Qed.

Lemma C5_update_witness :
  let w := stored sample_tasks "2024-01-02T08:00:00" in
  fst (@cmd_update ascii_builtins ["1"; "Buy"; "oat milk"] w)
    = Ok (Updated 1) /\
  file (snd (@cmd_update ascii_builtins ["1"; "Buy"; "oat milk"] w)) =
    Some (Decoded (JList (map JDict
      [ sample_task 3 "Cook" "todo";
        [ ("id", JInt 1);
          ("description", JStr "Buy oat milk");
          ("status", JStr "done");
          ("createdAt", JStr "2024-01-01T09:00:00");
          ("updatedAt", JStr "2024-01-02T08:00:00") ];
        sample_task 2 "Clean" "todo" ]))).
Proof.
  intros w.
  destruct (@C5_update_and_status_touch_only_target ascii_builtins "1" 1 w w
              sample_tasks eq_refl eq_refl eq_refl eq_refl)
    as (before & t & after & Htasks & Ht & Hbefore & Hupdate & _).
  destruct before as [|b0 [|b1 before]]; cbn in Htasks.
  - injection Htasks as <- _. discriminate Ht.
  - injection Htasks as <- <- <-.
    destruct (Hupdate ["Buy"; "oat milk"]) as (Hres & Hfile & _);
      [discriminate | discriminate |].
    split; [exact Hres | exact Hfile].
  - injection Htasks as <- <- Htasks. discriminate Hbefore.
Defined.

(** C6.  [set_status] stores whatever status it is given and the current
    timestamp.  So for every status, and in particular "todo", "in-progress"
    and "done", marking an existing id sets the status of the target to that
    value and refreshes [updatedAt], whatever the status was before: the same
    status again, or a change away from "done", go through like any other. *)
Theorem C6_set_status_unrestricted `{PyBuiltins} (status tok : string)
        (i : Z) (w w1 : world) (tasks : list dict) :
  py_int tok = Some i -> 0 < i ->
  load_tasks w = (Ok tasks, w1) ->
  existsb (has_id i) tasks = true ->
  exists n t t',
    find_task tasks i = Some (n, t) /\
    set_status t status w = (Ok t', w) /\
    py_get "status" t' = JStr status /\
    py_get "updatedAt" t' = JStr (clock w) /\
    mark status [tok] w =
      (Ok (Marked i status),
       {| file := Some (Decoded (JList (map JDict (write_back n t' tasks))));
          clock := clock w;
          log := log w1 ++ [Saved (write_back n t' tasks)] |}) /\
    find_task (write_back n t' tasks) i = Some (n, t').
Proof.
  intros Hint Hpos Hload Hex.
  destruct (existsb_found tasks i Hex) as (n & t & Hfind).
  exists n, t, (assign2 "status" (JStr status) "updatedAt" (JStr (clock w)) t).
  split; [exact Hfind|]. split; [reflexivity|].
  split; [|split; [|split]].
  - unfold assign2. rewrite py_get_set_other by discriminate.
    apply py_get_set_same.
  - apply py_get_set_same.
  - rewrite (mark_checked status tok i w w1 tasks); trivial.
    now rewrite Hfind.
  - clear Hload Hex. revert n Hfind.
    induction tasks as [|u tasks IH]; intros n; cbn; [discriminate|].
    destruct (py_eq_int (py_get "id" u) i) eqn:Hu.
    + intros [= <- <-]. cbn. unfold assign2.
      rewrite !py_get_set_other by discriminate. now rewrite Hu.
    + destruct (find_task tasks i) as [[m v]|] eqn:Hrest; [|discriminate].
      intros [= <- <-]. cbn. rewrite Hu.
      now rewrite (IH m eq_refl).
Qed.

Lemma C6_set_status_witness :
  let w := stored sample_tasks "2024-01-02T08:00:00" in
  exists n t t',
    find_task sample_tasks 1 = Some (n, t) /\
    py_get "status" t = JStr "done" /\
    py_get "status" t' = JStr "in-progress" /\
    py_get "updatedAt" t' = JStr "2024-01-02T08:00:00" /\
    fst (@cmd_mark_in_progress ascii_builtins ["1"] w)
      = Ok (Marked 1 "in-progress") /\
    file (snd (@cmd_mark_in_progress ascii_builtins ["1"] w)) =
      Some (Decoded (JList (map JDict (write_back n t' sample_tasks)))).
Proof.
  intros w.
  destruct (@C6_set_status_unrestricted ascii_builtins "in-progress" "1" 1
              w w sample_tasks eq_refl eq_refl eq_refl eq_refl)
    as (n & t & t' & Hfind & _ & Hstatus & Hupdated & Hmark & _).
  exists n, t, t'.
  split; [exact Hfind|].
  split; [now injection Hfind as <- <-|].
  split; [exact Hstatus|].
  split; [exact Hupdated|].
  unfold cmd_mark_in_progress. now rewrite Hmark.
Defined.

(* ===================================================================== *)
(** ** [cmd_delete] *)
(* ===================================================================== *)

Lemma filter_app_cons_out {A : Type} (p : A -> bool) (l1 l2 : list A) (x : A) :
  p x = false -> filter p (l1 ++ x :: l2) = filter p l1 ++ filter p l2.
Proof.
  intros Hx. rewrite filter_app. cbn. now rewrite Hx.
Qed.

Lemma filter_none {A : Type} (p : A -> bool) (l : list A) :
  existsb p l = false -> filter p l = [].
Proof.
  induction l as [|x l IH]; cbn; [reflexivity|].
  destruct (p x); cbn; [discriminate | exact IH].
Qed.

Lemma filter_length_zero {A : Type} (p : A -> bool) (l : list A) :
  List.length (filter p l) = 0%nat -> existsb p l = false.
Proof.
  induction l as [|x l IH]; cbn; [reflexivity|].
  destruct (p x); cbn; [discriminate | exact IH].
Qed.

Lemma filter_negb_none {A : Type} (p : A -> bool) (l : list A) :
  existsb p l = false -> filter (fun x => negb (p x)) l = l.
Proof.
  intros Hex. apply filter_all_true.
  now rewrite forallb_negb_existsb, Hex.
Qed.

Lemma has_id_id_of (i : Z) (t : dict) :
  (exists n, py_get "id" t = JInt n) -> has_id i t = true -> id_of t = i.
Proof.
  intros [n Hn]. unfold has_id, id_of. rewrite Hn. cbn.
  apply Z.eqb_eq.
Qed.

(** Records that all carry integer ids, pairwise different, have unique
    ids. *)
Lemma unique_ids_from_nodup (tasks : list dict) :
  Forall (fun t => exists n, py_get "id" t = JInt n) tasks ->
  NoDup (map id_of tasks) ->
  unique_ids tasks.
Proof.
  intros Hint Hnodup i.
  induction tasks as [|t tasks IH]; cbn; [lia|].
  apply Forall_cons_iff in Hint as [Ht Hint].
  apply NoDup_cons_iff in Hnodup as [Hnotin Hnodup].
  specialize (IH Hint Hnodup).
  destruct (has_id i t) eqn:Hid; [|exact IH].
  apply (has_id_id_of i t Ht) in Hid.
  enough (Hnone : filter (has_id i) tasks = [])
    by (cbn; rewrite Hnone; cbn; lia).
  apply filter_none.
  destruct (existsb (has_id i) tasks) eqn:Hex; [|reflexivity].
  apply existsb_exists in Hex as (u & Hin & Hu).
  destruct Hnotin. rewrite Hid.
  rewrite Forall_forall in Hint.
  rewrite <- (has_id_id_of i u (Hint u Hin) Hu).
  now apply in_map.
Qed.

(** C7.  In a collection whose ids are unique and which holds a record with
    the given id, [delete] removes that one record and no other: the records
    before it and after it are written back unchanged and in the same order,
    and no record of the result has that id. *)
Theorem C7_delete_removes_exactly_the_record `{PyBuiltins} (tok : string)
        (i : Z) (w w1 : world) (tasks : list dict) :
  py_int tok = Some i -> 0 < i ->
  load_tasks w = (Ok tasks, w1) ->
  unique_ids tasks ->
  existsb (has_id i) tasks = true ->
  exists before t after,
    tasks = before ++ t :: after /\
    has_id i t = true /\
    fst (cmd_delete [tok] w) = Ok (Deleted i) /\
    file (snd (cmd_delete [tok] w)) =
      Some (Decoded (JList (map JDict (before ++ after)))) /\
    List.length (before ++ after) = (List.length tasks - 1)%nat /\
    existsb (has_id i) (before ++ after) = false.
Proof.
  intros Hint Hpos Hload Huniq Hex.
  destruct (existsb_found tasks i Hex) as (n & t & Hfind).
  destruct (find_task_some tasks i n t Hfind)
    as (before & after & Htasks & _ & Ht & Hbefore & _).
  assert (Hafter : existsb (has_id i) after = false).
  { specialize (Huniq i). rewrite Htasks, filter_app in Huniq.
    cbn in Huniq. rewrite Ht in Huniq.
    rewrite (filter_none _ before Hbefore) in Huniq. cbn in Huniq.
    apply filter_length_zero. lia. }
  assert (Hkept : filter (fun u => negb (has_id i u)) tasks = before ++ after).
  { rewrite Htasks, filter_app_cons_out by now rewrite Ht.
    now rewrite !filter_negb_none. }
  exists before, t, after.
  rewrite (cmd_delete_checked tok i w w1 tasks), Hex by trivial.
  cbn [fst snd file]. rewrite Hkept.
  repeat split; trivial.
  - rewrite Htasks, !length_app. cbn. lia.
  - rewrite existsb_app, Hbefore, Hafter. reflexivity.
Qed.

Lemma C7_delete_witness :
  let w := stored sample_tasks "2024-01-02T08:00:00" in
  fst (@cmd_delete ascii_builtins ["1"] w) = Ok (Deleted 1) /\
  exists before t after,
    sample_tasks = before ++ t :: after /\
    has_id 1 t = true /\
    file (snd (@cmd_delete ascii_builtins ["1"] w)) =
      Some (Decoded (JList (map JDict (before ++ after)))).
Proof.
  intros w.
  assert (Huniq : unique_ids sample_tasks).
  { apply unique_ids_from_nodup.
    - repeat constructor; eexists; reflexivity.
    - repeat constructor; cbn; intuition discriminate. }
  destruct (@C7_delete_removes_exactly_the_record ascii_builtins "1" 1 w w
              sample_tasks eq_refl eq_refl eq_refl Huniq eq_refl)
    as (before & t & after & Htasks & Ht & Hres & Hfile & _).
  split; [exact Hres|].
  exists before, t, after. repeat split; assumption.
Defined.

(* ===================================================================== *)
(** ** [cmd_list]: filtering and sorting *)
(* ===================================================================== *)

Lemma sort_key_int (t : dict) :
  as_int (py_get "id" t) <> None ->
  as_int (sort_key t) = Some (id_of t).
Proof.
  unfold sort_key, py_get_default, id_of, py_get.
  destruct (dict_lookup "id" t) as [v|]; cbn; [|congruence].
  now destruct (as_int v).
Qed.

Lemma py_lt_int (a b : json) (x y : Z) :
  as_int a = Some x -> as_int b = Some y -> py_lt a b = Less (x <? y).
Proof.
  intros Ha Hb. unfold py_lt. now rewrite Ha, Hb.
Qed.

Lemma insert_task_int (t : dict) (l : list dict) :
  as_int (py_get "id" t) <> None ->
  integer_ids l ->
  exists l',
    insert_task t l = Ok l' /\
    Permutation (t :: l) l' /\
    (StronglySorted id_le l -> StronglySorted id_le l').
Proof.
  intros Ht. induction l as [|u l IH]; intros Hl.
  - exists [t]. cbn. repeat split; auto.
    intros _. repeat constructor.
  - apply Forall_cons_iff in Hl as [Hu Hl].
    destruct (IH Hl) as (l' & Hins & Hperm & Hsorted).
    cbn [insert_task].
    rewrite (py_lt_int _ _ (id_of u) (id_of t))
      by now apply sort_key_int.
    destruct (Z.ltb_spec (id_of u) (id_of t)) as [Hlt|Hge].
    + rewrite Hins. exists (u :: l'). split; [reflexivity|]. split.
      * rewrite perm_swap. now constructor.
      * intros Hs. apply StronglySorted_inv in Hs as [Hs Hall].
        constructor; [now apply Hsorted|].
        apply (Permutation_Forall Hperm).
        constructor; [unfold id_le; lia | exact Hall].
    + exists (t :: u :: l). split; [reflexivity|]. split; [reflexivity|].
      intros Hs. constructor; [exact Hs|].
      pose proof (StronglySorted_inv Hs) as [_ Hall].
      constructor; [exact Hge|].
      eapply Forall_impl; [|exact Hall].
      unfold id_le. intros v Hv. lia.
Qed.

Lemma integer_ids_perm (l l' : list dict) :
  Permutation l l' -> integer_ids l -> integer_ids l'.
Proof. intros Hperm. apply Permutation_Forall, Hperm. Qed.

(** On integer ids [sorted] returns the tasks in ascending id order. *)
Lemma sorted_by_id_int (tasks : list dict) :
  integer_ids tasks ->
  exists shown,
    sorted_by_id tasks = Ok shown /\
    Permutation tasks shown /\
    StronglySorted id_le shown.
Proof.
  induction tasks as [|t tasks IH]; intros Hint.
  - exists []. repeat split; constructor.
  - apply Forall_cons_iff in Hint as [Ht Hint].
    destruct (IH Hint) as (rest & Hsort & Hperm & Hsorted).
    destruct (insert_task_int t rest Ht (integer_ids_perm _ _ Hperm Hint))
      as (shown & Hins & Hperm' & Hsorted').
    exists shown. cbn. rewrite Hsort. split; [exact Hins|]. split.
    + now rewrite <- Hperm', <- Hperm.
    + now apply Hsorted'.
Qed.

Lemma insert_task_no_exit (t : dict) (l : list dict) (e : error) :
  insert_task t l <> Exit e.
Proof.
  induction l as [|u l IH]; cbn; [discriminate|].
  destruct (py_lt (sort_key u) (sort_key t)) as [[|]| |]; try discriminate.
  destruct (insert_task t l); congruence.
Qed.

Lemma sorted_by_id_no_exit (tasks : list dict) (e : error) :
  sorted_by_id tasks <> Exit e.
Proof.
  induction tasks as [|t tasks IH]; cbn; [discriminate|].
  destruct (sorted_by_id tasks); try congruence.
  apply insert_task_no_exit.
Qed.

Lemma valid_status_spec (s : string) :
  valid_status s = true <-> In s VALID_STATUSES.
Proof.
  unfold valid_status. rewrite existsb_exists. split.
  - intros (x & Hin & Heq). apply String.eqb_eq in Heq. now subst.
  - intros Hin. exists s. split; [exact Hin | apply String.eqb_refl].
Qed.

Lemma valid_status_not_empty (s : string) :
  valid_status s = true -> is_empty s = false.
Proof.
  intros Hvalid. apply valid_status_spec in Hvalid.
  cbn in Hvalid. destruct Hvalid as [<-|[<-|[<-|[]]]]; reflexivity.
Qed.

Lemma cmd_list_checked `{PyBuiltins} (args : list string) (w w1 : world)
      (tasks : list dict) :
  load_tasks w = (Ok tasks, w1) ->
  cmd_list args w =
  match args with
  | [] => show tasks w1
  | [tok] =>
      if valid_status (py_lower (py_strip tok))
      then show (filter (has_status (py_lower (py_strip tok))) tasks) w1
      else (Exit InvalidFilter, w1)
  | _ => (Exit Usage, w1)
  end.
Proof.
  intros Hload. unfold cmd_list, bind. rewrite Hload.
  destruct args as [|tok [|tok' args]];
    unfold status_filter_of, show, ret, exit; cbv beta iota.
  - now destruct tasks.
  - destruct (valid_status (py_lower (py_strip tok))) eqn:Hvalid;
      [|reflexivity].
    rewrite (valid_status_not_empty _ Hvalid).
    fold (has_status (py_lower (py_strip tok))).
    now destruct (filter _ tasks).
  - reflexivity.
Qed.

Lemma show_int (selected : list dict) (w : world) :
  integer_ids selected ->
  exists shown,
    listing (fst (show selected w)) = Some shown /\
    Permutation selected shown /\
    StronglySorted id_le shown.
Proof.
  intros Hint. destruct selected as [|t selected].
  - exists []. repeat split; constructor.
  - destruct (sorted_by_id_int _ Hint) as (shown & Hsort & Hperm & Hsorted).
    exists shown. unfold show. rewrite Hsort. now repeat split.
Qed.

Lemma show_no_exit (selected : list dict) (w : world) (e : error) :
  fst (show selected w) <> Exit e.
Proof.
  destruct selected as [|t selected]; [discriminate|].
  unfold show.
  pose proof (sorted_by_id_no_exit (t :: selected)) as Hno.
  destruct (sorted_by_id (t :: selected)); cbn; try discriminate.
  intros [= ->]. now destruct (Hno e).
Qed.

(** C8.  For every collection whose records carry integer ids: [list] with
    a filter that reads as "todo", "in-progress" or "done" shows exactly the
    records with that status, in ascending id order, and [list] with no
    filter shows all records in ascending id order.  For every collection:
    when the collection is empty or no record matches, the result is the
    empty listing and not an error; and [list] fails with [InvalidFilter]
    exactly when one filter is supplied that does not read as one of the
    three values. *)
Theorem C8_list_filters_and_sorts `{PyBuiltins} (w w1 : world)
        (tasks : list dict) :
  load_tasks w = (Ok tasks, w1) ->
  (integer_ids tasks ->
     (exists shown,
        listing (fst (cmd_list [] w)) = Some shown /\
        Permutation tasks shown /\
        StronglySorted id_le shown) /\
     (forall tok,
        valid_status (py_lower (py_strip tok)) = true ->
        exists shown,
          listing (fst (cmd_list [tok] w)) = Some shown /\
          Permutation
            (filter (has_status (py_lower (py_strip tok))) tasks) shown /\
          StronglySorted id_le shown)) /\
  (tasks = [] -> fst (cmd_list [] w) = Ok NoTasksFound) /\
  (forall tok,
     valid_status (py_lower (py_strip tok)) = true ->
     filter (has_status (py_lower (py_strip tok))) tasks = [] ->
     fst (cmd_list [tok] w) = Ok NoTasksFound) /\
  (forall args,
     fst (cmd_list args w) = Exit InvalidFilter <->
     exists tok,
       args = [tok] /\ valid_status (py_lower (py_strip tok)) = false).
Proof.
  intros Hload.
  pose proof (fun args => cmd_list_checked args w w1 tasks Hload) as Hrun.
  split; [|split; [|split]].
  - intros Hint. split.
    + rewrite Hrun. now apply show_int.
    + intros tok Hvalid. rewrite Hrun, Hvalid.
      apply show_int. unfold integer_ids in *.
      rewrite Forall_forall in *. intros t Hin.
      apply filter_In in Hin as [Hin _]. now apply Hint.
  - intros ->. now rewrite Hrun.
  - intros tok Hvalid Hnone. rewrite Hrun, Hvalid, Hnone. reflexivity.
  - intros args. rewrite Hrun. split.
    + destruct args as [|tok [|tok' args]].
      * intros Hexit. now apply show_no_exit in Hexit.
      * destruct (valid_status (py_lower (py_strip tok))) eqn:Hvalid.
        -- intros Hexit. now apply show_no_exit in Hexit.
        -- intros _. now exists tok.
      * discriminate.
    + intros (tok & -> & Hvalid). now rewrite Hvalid.
Qed.

Lemma C8_list_witness :
  let w := stored sample_tasks "2024-01-02T08:00:00" in
  (exists shown,
     listing (fst (@cmd_list ascii_builtins [" TODO "] w)) = Some shown /\
     Permutation
       [sample_task 3 "Cook" "todo"; sample_task 2 "Clean" "todo"] shown /\
     StronglySorted id_le shown) /\
  fst (@cmd_list ascii_builtins [] (stored [] "2024-01-02T08:00:00"))
    = Ok NoTasksFound /\
  fst (@cmd_list ascii_builtins ["in-progress"] w) = Ok NoTasksFound /\
  fst (@cmd_list ascii_builtins ["bogus"] w) = Exit InvalidFilter.
Proof.
  intros w.
  assert (Hint : integer_ids sample_tasks)
    by (repeat constructor; discriminate).
  destruct (@C8_list_filters_and_sorts ascii_builtins w w sample_tasks eq_refl)
    as (Hsorted & _ & Hnone & Hbad).
  split; [|split; [|split]].
  - exact (proj2 (Hsorted Hint) " TODO " eq_refl).
  - exact (proj1 (proj2 (@C8_list_filters_and_sorts ascii_builtins
             (stored [] "2024-01-02T08:00:00")
             (stored [] "2024-01-02T08:00:00") [] eq_refl)) eq_refl).
  - exact (Hnone "in-progress" eq_refl eq_refl).
  - apply (Hbad ["bogus"]). now exists "bogus".
Defined.

(* ===================================================================== *)
(** ** Every invocation is a transition of the collection *)
(* ===================================================================== *)

Lemma load_tasks_same_tasks (w w1 : world) (r : result (list dict)) :
  load_tasks w = (r, w1) -> tasks_of w1 = tasks_of w.
Proof.
  rewrite load_tasks_cases. unfold tasks_of.
  destruct (file w) as [[|v]|] eqn:Hfile.
  - intros [= _ <-]. now rewrite Hfile.
  - destruct v; intros [= _ <-]; now rewrite Hfile.
  - now intros [= _ <-].
Qed.

Lemma tasks_of_saved (tasks : list dict) (c : string) (l : list io_event) :
  tasks_of {| file := Some (Decoded (JList (map JDict tasks)));
              clock := c; log := l |} = tasks.
Proof. unfold tasks_of. cbn. apply only_dicts_map. Qed.

Ltac settle_stay :=
  first
    [ apply T_stay; cbn; trivial
    | match goal with
      | Hload : load_tasks _ = _ |- _ =>
          rewrite (load_tasks_same_tasks _ _ _ Hload);
          apply T_stay; cbn; trivial
      end ].

Ltac settle_saved :=
  rewrite tasks_of_saved;
  match goal with
  | Hload : load_tasks _ = (Ok _, _) |- _ =>
      apply load_tasks_ok in Hload as (-> & _)
  end.

Lemma cmd_add_transition `{PyBuiltins} (args : list string) (w w' : world)
      (r : result report) :
  cmd_add args w = (r, w') -> transition (tasks_of w) r (tasks_of w').
Proof.
  unfold cmd_add, bind, exit, ret, now_iso, save_tasks.
  intros Hrun. run_cases Hrun; try settle_stay.
  settle_saved. apply T_add; [reflexivity|].
  now apply is_empty_false.
Qed.

Lemma cmd_update_transition `{PyBuiltins} (args : list string) (w w' : world)
      (r : result report) :
  cmd_update args w = (r, w') -> transition (tasks_of w) r (tasks_of w').
Proof.
  unfold cmd_update, bind, exit, ret, now_iso, save_tasks.
  intros Hrun. run_cases Hrun; try settle_stay.
  settle_saved. apply T_update; trivial.
  now apply is_empty_false.
Qed.

Lemma cmd_delete_transition `{PyBuiltins} (args : list string) (w w' : world)
      (r : result report) :
  cmd_delete args w = (r, w') -> transition (tasks_of w) r (tasks_of w').
Proof.
  unfold cmd_delete, bind, exit, ret, save_tasks.
  intros Hrun. run_cases Hrun; try settle_stay.
  settle_saved.
  match goal with
  | Hlen : (_ =? _)%nat = false |- _ =>
      rewrite filter_length_same, forallb_negb_existsb in Hlen;
      apply negb_false_iff in Hlen
  end.
  now apply T_delete.
Qed.

Lemma mark_transition `{PyBuiltins} (status : string) (args : list string)
      (w w' : world) (r : result report) :
  mark status args w = (r, w') -> transition (tasks_of w) r (tasks_of w').
Proof.
  unfold mark, set_status, bind, exit, ret, now_iso, save_tasks.
  intros Hrun. run_cases Hrun; try settle_stay.
  settle_saved. now apply T_mark.
Qed.

Lemma cmd_list_transition `{PyBuiltins} (args : list string) (w w' : world)
      (r : result report) :
  cmd_list args w = (r, w') -> transition (tasks_of w) r (tasks_of w').
Proof.
  unfold cmd_list, bind, exit, ret.
  intros Hrun. run_cases Hrun; settle_stay.
Qed.

(** Whatever the command, [run] moves the collection by one [transition]. *)
Lemma run_transition `{PyBuiltins} (c : command) (args : list string)
      (w w' : world) (r : result report) :
  run c args w = (r, w') -> transition (tasks_of w) r (tasks_of w').
Proof.
  destruct c; cbn [run].
  - apply cmd_add_transition.
  - apply cmd_update_transition.
  - apply cmd_delete_transition.
  - apply mark_transition.
  - apply mark_transition.
  - apply cmd_list_transition.
Qed.

Lemma invoke_transition `{PyBuiltins} (i : invocation) (w : world) :
  transition (tasks_of w) (fst (invoke i w)) (tasks_of (snd (invoke i w))).
Proof.
  destruct i as [[c args] now]. unfold invoke.
  destruct (run c args _) as [r w'] eqn:Hrun.
  apply run_transition in Hrun. exact Hrun.
Qed.

(* ===================================================================== *)
(** ** Ids over a session *)
(* ===================================================================== *)

Lemma existing_ids_app (l1 l2 : list dict) :
  existing_ids (l1 ++ l2) = existing_ids l1 ++ existing_ids l2.
Proof. apply flat_map_app. Qed.

Lemma existing_ids_int (tasks : list dict) :
  Forall (fun t => exists n, py_get "id" t = JInt n /\ 0 < n) tasks ->
  existing_ids tasks = map id_of tasks.
Proof.
  induction 1 as [|t tasks (n & Hn & _) _ IH]; [reflexivity|].
  change (existing_ids (t :: tasks))
    with (match as_int (py_get "id" t) with
          | Some i => [i]
          | None => []
          end ++ existing_ids tasks).
  assert (Hid : id_of t = n) by (unfold id_of; now rewrite Hn).
  rewrite IH. cbn [map]. rewrite Hid, Hn. reflexivity.
Qed.

Lemma fold_max_swap (ids : list Z) (a b : Z) :
  fold_left Z.max ids (Z.max a b) = Z.max b (fold_left Z.max ids a).
Proof.
  revert a. induction ids as [|i ids IH]; intros a; cbn; [lia|].
  rewrite <- IH. f_equal. lia.
Qed.

Lemma fold_max_snoc (ids : list Z) (a x : Z) :
  fold_left Z.max (ids ++ [x]) a = Z.max (fold_left Z.max ids a) x.
Proof. now rewrite fold_left_app. Qed.

(** Removing an id below the maximum leaves the maximum as it is. *)
Lemma fold_max_remove (ids : list Z) (i a : Z) :
  i < fold_left Z.max ids a ->
  fold_left Z.max (filter (fun n => negb (n =? i)) ids) a =
  fold_left Z.max ids a.
Proof.
  revert a. induction ids as [|x ids IH]; intros a Hlt; cbn in *;
    [reflexivity|].
  destruct (Z.eqb_spec x i) as [->|Hneq]; cbn.
  - rewrite fold_max_swap in Hlt |- *.
    rewrite IH by lia. lia.
  - now apply IH.
Qed.

Lemma has_id_as_int (i n : Z) (t : dict) :
  as_int (py_get "id" t) = Some n -> has_id i t = (n =? i).
Proof.
  unfold has_id. destruct (py_get "id" t); cbn; try discriminate.
  - now intros [= <-].
  - now intros [= <-].
Qed.

Lemma existing_ids_cons (t : dict) (tasks : list dict) :
  existing_ids (t :: tasks) =
  match as_int (py_get "id" t) with
  | Some i => [i]
  | None => []
  end ++ existing_ids tasks.
Proof. reflexivity. Qed.

Lemma existing_ids_delete (tasks : list dict) (i : Z) :
  existing_ids (filter (fun t => negb (has_id i t)) tasks) =
  filter (fun n => negb (n =? i)) (existing_ids tasks).
Proof.
  induction tasks as [|t tasks IH]; [reflexivity|].
  cbn [filter]. rewrite existing_ids_cons.
  destruct (as_int (py_get "id" t)) as [n|] eqn:Hn.
  - rewrite (has_id_as_int i n t Hn). cbn [app filter].
    destruct (n =? i); cbn [negb]; [exact IH|].
    now rewrite existing_ids_cons, Hn, IH.
  - cbn [app]. destruct (has_id i t); cbn [negb]; [exact IH|].
    now rewrite existing_ids_cons, Hn, IH.
Qed.

Lemma next_id_delete (tasks : list dict) (i : Z) :
  i < next_id tasks - 1 ->
  next_id (filter (fun t => negb (has_id i t)) tasks) = next_id tasks.
Proof.
  rewrite !next_id_fold, existing_ids_delete. intros Hlt.
  rewrite fold_max_remove; [reflexivity | lia].
Qed.

Lemma existing_ids_new_task (tid : Z) (description ts : string) :
  existing_ids [new_task tid description ts] = [tid].
Proof. reflexivity. Qed.

Lemma next_id_add (tasks : list dict) (description ts : string) :
  next_id (tasks ++ [new_task (next_id tasks) description ts]) =
  next_id tasks + 1.
Proof.
  rewrite (next_id_fold (tasks ++ _)), existing_ids_app.
  rewrite existing_ids_new_task, fold_max_snoc.
  pose proof (next_id_fold tasks). lia.
Qed.

(** A field assignment that keeps the id, written back where [find_task]
    found the task, keeps the ids of the collection. *)
Lemma write_back_ids (tasks : list dict) (i : Z) (n : nat) (t t' : dict) :
  find_task tasks i = Some (n, t) ->
  py_get "id" t' = py_get "id" t ->
  map (py_get "id") (write_back n t' tasks) = map (py_get "id") tasks.
Proof.
  intros Hfind Hid.
  destruct (find_task_some tasks i n t Hfind)
    as (before & after & -> & _ & _ & _ & Hwrite).
  rewrite Hwrite, !map_app. cbn. now rewrite Hid.
Qed.

Lemma existing_ids_by_id (l l' : list dict) :
  map (py_get "id") l = map (py_get "id") l' ->
  existing_ids l = existing_ids l'.
Proof.
  revert l'. induction l as [|t l IH]; intros [|t' l']; cbn [map];
    try discriminate; [reflexivity|].
  intros [= Ht Hl]. rewrite !existing_ids_cons, Ht. now rewrite (IH l' Hl).
Qed.

Lemma assign2_keeps_id (k1 k2 : string) (v1 v2 : json) (t : dict) :
  k1 <> "id" -> k2 <> "id" ->
  py_get "id" (assign2 k1 v1 k2 v2 t) = py_get "id" t.
Proof.
  intros H1 H2. unfold assign2. now rewrite !py_get_set_other by congruence.
Qed.

(** [next_id] along a transition: it never decreases as long as no delete
    removes the greatest id, and an [add] raises it by one. *)
Lemma transition_next_id (tasks tasks' : list dict) (r : result report) :
  transition tasks r tasks' ->
  match r with
  | Ok (Deleted i) => i < next_id tasks - 1 -> next_id tasks' = next_id tasks
  | Ok (Added tid) => tid = next_id tasks /\ next_id tasks' = tid + 1
  | _ => next_id tasks' = next_id tasks
  end.
Proof.
  intros Hstep. destruct Hstep as [tid d ts -> _|i n t d ts _ Hfind _|i _ _
                                  |i n t status ts _ Hfind|r Hstay].
  - split; [reflexivity | apply next_id_add].
  - rewrite !next_id_fold. f_equal. f_equal.
    apply existing_ids_by_id, (write_back_ids tasks i n t); [exact Hfind|].
    apply (assign2_keeps_id "description" "updatedAt"); discriminate.
  - apply next_id_delete.
  - rewrite !next_id_fold. f_equal. f_equal.
    apply existing_ids_by_id, (write_back_ids tasks i n t); [exact Hfind|].
    apply (assign2_keeps_id "status" "updatedAt"); discriminate.
  - destruct r as [[]| | |]; cbn in Hstay; try discriminate; reflexivity.
Qed.

(** The ids assigned from a world on are above every id present in it and
    strictly increasing, when no delete removes the greatest id. *)
Lemma assigned_ids_increasing `{PyBuiltins} (invs : list invocation)
      (w : world) :
  deletes_below_max (session invs w) ->
  Forall (fun tid => next_id (tasks_of w) <= tid)
    (assigned_ids (session invs w)) /\
  StronglySorted Z.lt (assigned_ids (session invs w)).
Proof.
  revert w. induction invs as [|i invs IH]; intros w Hdel; cbn.
  - split; constructor.
  - cbn in Hdel. apply Forall_cons_iff in Hdel as [Hhere Hdel].
    cbn [fst snd] in Hhere.
    destruct (IH _ Hdel) as [Habove Hsorted].
    pose proof (transition_next_id _ _ _ (invoke_transition i w)) as Hnext.
    unfold assigned_ids in *. cbn [flat_map snd].
    destruct (fst (invoke i w)) as [[tid|j|j|j st| |shown]|e| |]; cbn [app];
      try (rewrite Hnext in Habove; now split).
    + destruct Hnext as [-> Hnext]. rewrite Hnext in Habove. split.
      * constructor; [lia|].
        eapply Forall_impl; [|exact Habove]. cbn. intros; lia.
      * constructor; [exact Hsorted|].
        eapply Forall_impl; [|exact Habove]. cbn. intros; lia.
    + rewrite (Hnext Hhere) in Habove. now split.
Qed.

Lemma sorted_lt_nodup (ids : list Z) : StronglySorted Z.lt ids -> NoDup ids.
Proof.
  induction 1 as [|i ids _ IH Hall]; constructor; [|exact IH].
  intros Hin. rewrite Forall_forall in Hall.
  specialize (Hall i Hin). lia.
Qed.

Lemma sorted_lt_snoc (ids : list Z) (x : Z) :
  StronglySorted Z.lt ids -> Forall (fun i => i < x) ids ->
  StronglySorted Z.lt (ids ++ [x]).
Proof.
  induction 1 as [|i ids _ IH Hall]; intros Hbelow; cbn.
  - repeat constructor.
  - apply Forall_cons_iff in Hbelow as [Hi Hbelow].
    constructor; [now apply IH|].
    apply Forall_app. split; [exact Hall | now constructor].
Qed.

Lemma sorted_map_filter {A : Type} (f : A -> Z) (p : A -> bool) (l : list A) :
  StronglySorted Z.lt (map f l) -> StronglySorted Z.lt (map f (filter p l)).
Proof.
  induction l as [|x l IH]; cbn; [trivial|].
  intros Hs. apply StronglySorted_inv in Hs as [Hs Hall].
  destruct (p x); cbn; [|now apply IH].
  constructor; [now apply IH|].
  rewrite Forall_forall in *. intros y Hy.
  apply in_map_iff in Hy as (z & <- & Hz).
  apply filter_In in Hz as [Hz _].
  apply Hall. now apply in_map.
Qed.

(** A valid collection has integer ids, and they are unique. *)
Lemma valid_collection_ids (tasks : list dict) :
  valid_collection tasks -> integer_ids tasks /\ unique_ids tasks.
Proof.
  intros [Hint Hsorted]. split.
  - eapply Forall_impl; [|exact Hint].
    cbn. intros t (n & Hn & _). rewrite Hn. discriminate.
  - apply unique_ids_from_nodup.
    + eapply Forall_impl; [|exact Hint].
      cbn. intros t (n & Hn & _). now exists n.
    + now apply sorted_lt_nodup.
Qed.

Lemma valid_collection_write_back (tasks : list dict) (i : Z) (n : nat)
      (t t' : dict) :
  find_task tasks i = Some (n, t) ->
  py_get "id" t' = py_get "id" t ->
  valid_collection tasks -> valid_collection (write_back n t' tasks).
Proof.
  intros Hfind Hid [Hint Hsorted].
  destruct (find_task_some tasks i n t Hfind)
    as (before & after & -> & _ & _ & _ & Hwrite).
  rewrite Hwrite. split.
  - apply Forall_app in Hint as [Hbefore Hrest].
    apply Forall_cons_iff in Hrest as [Ht Hafter].
    apply Forall_app. split; [exact Hbefore|].
    constructor; [now rewrite Hid | exact Hafter].
  - rewrite map_app in *. cbn [map] in *.
    replace (id_of t') with (id_of t); [exact Hsorted|].
    unfold id_of. now rewrite Hid.
Qed.

(** Every transition keeps the collection valid. *)
Lemma transition_valid (tasks tasks' : list dict) (r : result report) :
  transition tasks r tasks' -> valid_collection tasks ->
  valid_collection tasks'.
Proof.
  intros Hstep Hvalid.
  destruct Hstep as [tid d ts -> _|i n t d ts _ Hfind _|i _ _
                    |i n t status ts _ Hfind|r _].
  - destruct Hvalid as [Hint Hsorted].
    destruct (next_id_above tasks) as [Hpos Habove].
    split.
    + apply Forall_app. split; [exact Hint|].
      constructor; [|constructor].
      exists (next_id tasks). now split.
    + rewrite map_app. cbn [map].
      change (id_of (new_task (next_id tasks) d ts)) with (next_id tasks).
      apply sorted_lt_snoc; [exact Hsorted|].
      now rewrite <- existing_ids_int.
  - apply (valid_collection_write_back tasks i n t); trivial.
    apply (assign2_keeps_id "description" "updatedAt"); discriminate.
  - destruct Hvalid as [Hint Hsorted]. split.
    + rewrite Forall_forall in *. intros t Hin.
      apply filter_In in Hin as [Hin _]. now apply Hint.
    + now apply sorted_map_filter.
  - apply (valid_collection_write_back tasks i n t); trivial.
    apply (assign2_keeps_id "status" "updatedAt"); discriminate.
  - exact Hvalid.
Qed.

Lemma session_valid `{PyBuiltins} (invs : list invocation) (w : world) :
  valid_collection (tasks_of w) ->
  Forall (fun e => valid_collection (tasks_of (fst e))) (session invs w).
Proof.
  revert w. induction invs as [|i invs IH]; intros w Hvalid; cbn;
    constructor; [exact Hvalid|].
  apply IH. exact (transition_valid _ _ _ (invoke_transition i w) Hvalid).
Qed.

Lemma session_adds `{PyBuiltins} (invs : list invocation) (w : world) :
  Forall
    (fun e => forall tid, snd e = Ok (Added tid) ->
       tid = next_id (tasks_of (fst e)) /\
       Forall (fun i => i < tid) (existing_ids (tasks_of (fst e))))
    (session invs w).
Proof.
  revert w. induction invs as [|i invs IH]; intros w; cbn; constructor;
    [|apply IH].
  cbn [fst snd]. intros tid Hadd.
  pose proof (transition_next_id _ _ _ (invoke_transition i w)) as Hnext.
  rewrite Hadd in Hnext. destruct Hnext as [-> _].
  split; [reflexivity | apply next_id_above].
Qed.

(** C1, as stated, fails: after [add], [add], [delete 2] the next [add]
    assigns the id 2 again. *)
Lemma C1_counterexample :
  assigned_ids (@session ascii_builtins reuse_session empty_world)
    = [1; 2; 2] /\
  ~ StronglySorted Z.lt
      (assigned_ids (@session ascii_builtins reuse_session empty_world)) /\
  ~ NoDup (assigned_ids (@session ascii_builtins reuse_session empty_world)).
Proof.
  assert (Hids :
    assigned_ids (@session ascii_builtins reuse_session empty_world)
    = [1; 2; 2]) by reflexivity.
  rewrite Hids. split; [reflexivity|]. split.
  - intros Hs. apply sorted_lt_nodup in Hs.
    apply NoDup_cons_iff in Hs as [_ Hs].
    apply NoDup_cons_iff in Hs as [Hnotin _]. apply Hnotin. now left.
  - intros Hs.
    apply NoDup_cons_iff in Hs as [_ Hs].
    apply NoDup_cons_iff in Hs as [Hnotin _]. apply Hnotin. now left.
Qed.

(** C1, amended.  For every sequence of invocations starting from the empty
    collection: each [add] assigns an id greater than every id present in
    the collection at that time, so the records of the collection always
    carry positive integer ids in increasing order, different from each
    other; and as long as no [delete] removes the record with the greatest
    id, the ids assigned by [add] are strictly increasing over time and none
    is assigned twice. *)
Theorem C1_ids_increase_while_greatest_survives `{PyBuiltins}
        (invs : list invocation) (w : world) :
  tasks_of w = [] ->
  Forall
    (fun e =>
       valid_collection (tasks_of (fst e)) /\
       unique_ids (tasks_of (fst e)) /\
       forall tid, snd e = Ok (Added tid) ->
         tid = next_id (tasks_of (fst e)) /\
         Forall (fun i => i < tid) (existing_ids (tasks_of (fst e))))
    (session invs w) /\
  (deletes_below_max (session invs w) ->
   StronglySorted Z.lt (assigned_ids (session invs w)) /\
   NoDup (assigned_ids (session invs w))).
Proof.
  intros Hempty. split.
  - assert (Hvalid : valid_collection (tasks_of w))
      by (rewrite Hempty; split; constructor).
    pose proof (session_valid invs w Hvalid) as Hv.
    pose proof (session_adds invs w) as Ha.
    rewrite Forall_forall in *. intros e Hin.
    split; [now apply Hv|]. split; [|now apply Ha].
    now apply valid_collection_ids, Hv.
  - intros Hdel.
    destruct (assigned_ids_increasing invs w Hdel) as [_ Hsorted].
    split; [exact Hsorted | now apply sorted_lt_nodup].
Qed.

Lemma C1_ids_witness :
  assigned_ids (@session ascii_builtins gap_session empty_world) = [1; 2; 3] /\
  StronglySorted Z.lt
    (assigned_ids (@session ascii_builtins gap_session empty_world)) /\
  NoDup (assigned_ids (@session ascii_builtins gap_session empty_world)).
Proof.
  split; [reflexivity|].
  apply (@C1_ids_increase_while_greatest_survives ascii_builtins gap_session
           empty_world eq_refl).
  repeat constructor.
Defined.

(* ===================================================================== *)
(** * Further properties of the code *)
(* ===================================================================== *)

(** ** The store *)

(** X1.  What [save_tasks] writes, [load_tasks] reads back: the same tasks
    in the same order, and reading them changes nothing. *)
Theorem X1_save_then_load (tasks : list dict) (w : world) :
  load_tasks (snd (save_tasks tasks w)) =
  (Ok tasks, snd (save_tasks tasks w)).
Proof.
  rewrite load_tasks_cases. unfold save_tasks. cbn [snd file].
  now rewrite only_dicts_map.
Qed.

Lemma load_tasks_file (w : world) :
  file (snd (load_tasks w)) = Some (persisted w).
Proof.
  rewrite load_tasks_cases. unfold persisted.
  destruct (file w) as [[|v]|] eqn:Hfile; cbn [snd]; trivial.
  destruct v; exact Hfile.
Qed.

(** X2.  Loading is idempotent: a second [load_tasks] gives the result of
    the first, failure included, and changes nothing.  The first one writes
    at most the empty list, and only when there was no file; a file that
    exists is left as it is, readable or not. *)
Theorem X2_load_is_idempotent (w : world) :
  load_tasks (snd (load_tasks w)) = load_tasks w /\
  file (snd (load_tasks w)) = Some (persisted w) /\
  (file w <> None -> snd (load_tasks w) = w).
Proof.
  rewrite (load_tasks_cases w). unfold persisted.
  destruct (file w) as [[|v]|] eqn:Hfile; cbn [snd fst].
  - rewrite load_tasks_cases, Hfile. repeat split; trivial.
  - destruct v; cbn [snd fst]; rewrite load_tasks_cases, Hfile;
      repeat split; trivial.
  - rewrite load_tasks_cases. cbn. repeat split. intros Hsome.
    now destruct Hsome.
Qed.

Lemma X2_load_witness :
  snd (load_tasks (holding Undecodable)) = holding Undecodable /\
  file (snd (load_tasks empty_world)) = Some (Decoded (JList [])).
Proof.
  split.
  - apply (proj2 (proj2 (X2_load_is_idempotent (holding Undecodable)))).
    discriminate.
  - exact (proj1 (proj2 (X2_load_is_idempotent empty_world))).
Defined.

(** ** Checks before the store *)

(** X3.  [add], [update], [delete] and the two status commands check their
    arguments before they touch the store: when one of them fails on the
    number of arguments, on a blank description or on the id token, the world
    is exactly as it was; not even the missing file is created. *)
Theorem X3_argument_failures_touch_nothing `{PyBuiltins} (c : command)
        (args : list string) (w w' : world) (e : error) :
  mutating c = true ->
  run c args w = (Exit e, w') ->
  argument_failure e = true ->
  w' = w.
Proof.
  assert (Hload : forall (e0 : error) (w0 w1 : world),
            load_tasks w0 = (Exit e0, w1) -> argument_failure e0 = true ->
            w1 = w0).
  { intros e0 w0 w1 Hl Harg. apply load_tasks_exit in Hl as [why ->].
    discriminate. }
  intros Hmut Hrun Harg.
  destruct c; try discriminate Hmut; cbn [run] in Hrun;
    unfold cmd_add, cmd_update, cmd_delete, cmd_mark_in_progress,
      cmd_mark_done, mark, set_status, bind, exit, ret, now_iso, save_tasks
      in Hrun;
    run_cases Hrun; try reflexivity; try discriminate Harg;
    eapply Hload; eassumption.
Qed.

Lemma X3_argument_failures_witness :
  snd (@run ascii_builtins CmdUpdate ["zero"; "x"] empty_world) = empty_world /\
  snd (@run ascii_builtins CmdAdd ["  "] empty_world) = empty_world.
Proof.
  split.
  - apply (@X3_argument_failures_touch_nothing ascii_builtins CmdUpdate
             ["zero"; "x"] empty_world _ InvalidId); reflexivity.
  - apply (@X3_argument_failures_touch_nothing ascii_builtins CmdAdd
             ["  "] empty_world _ EmptyInput); reflexivity.
Defined.

(** X4.  [list] only reads: whatever its arguments and however it ends, it
    saves nothing and the persisted collection is as before.  But it loads
    before it checks its arguments, so the file exists afterwards even when
    the filter is refused. *)
Theorem X4_list_only_reads `{PyBuiltins} (args : list string) (w : world) :
  persisted (snd (cmd_list args w)) = persisted w /\
  saves (snd (cmd_list args w)) = saves w /\
  file (snd (cmd_list args w)) = Some (persisted w).
Proof.
  destruct (cmd_list args w) as [r w'] eqn:Hrun. cbn [snd].
  assert (Hquiet : quiet w w').
  { apply cmd_list_effect in Hrun.
    destruct r as [x| | |]; cbn [effect] in Hrun; [exact (proj2 Hrun) | ..];
      exact Hrun. }
  destruct Hquiet as [Hpersisted Hsaves].
  repeat split; trivial.
  unfold cmd_list, bind in Hrun.
  pose proof (load_tasks_file w) as Hfile.
  destruct (load_tasks w) as [r1 w1]. cbn [snd] in Hfile.
  destruct r1 as [tasks|e| |];
    try (injection Hrun as _ <-; exact Hfile).
  destruct (status_filter_of args w1) as [r2 w2] eqn:Hfilter.
  apply status_filter_of_world in Hfilter. subst w2.
  destruct r2 as [f|e| |]; try (injection Hrun as _ <-; exact Hfile).
  unfold ret in Hrun.
  repeat match type of Hrun with
         | context [match ?x with _ => _ end] => destruct x
         end;
    injection Hrun as _ <-; exact Hfile.
Qed.

(** ** The entry point *)

(** X5.  Whatever the command line, [main] saves at most once, and only
    when the command succeeds; every other run leaves the persisted
    collection as it was, and a missing or unknown command leaves the world
    exactly as it was. *)
Theorem X5_main_saves_at_most_once `{PyBuiltins} (argv : list string)
        (w : world) :
  (forall e, fst (main argv w) = inl e -> snd (main argv w) = w) /\
  ((forall x, fst (main argv w) <> inr (Ok x)) ->
   persisted (snd (main argv w)) = persisted w /\
   saves (snd (main argv w)) = saves w) /\
  (saves (snd (main argv w)) = saves w \/
   exists tasks,
     saves (snd (main argv w)) = saves w ++ [tasks] /\
     file (snd (main argv w)) = Some (Decoded (JList (map JDict tasks)))).
Proof.
  unfold main.
  destruct argv as [|script [|name args]];
    try (cbn [fst snd]; repeat split; try (left; reflexivity); reflexivity).
  destruct (commands (py_lower (py_strip name))) as [c|];
    [|cbn [fst snd]; repeat split; try (left; reflexivity); reflexivity].
  cbn [fst snd].
  destruct (run c args w) as [r w'] eqn:Hrun. cbn [fst snd].
  apply run_effect in Hrun.
  split; [discriminate|]. split.
  - intros Hfail. destruct r as [x| | |]; cbn [effect] in Hrun;
      [now destruct (Hfail x) | exact Hrun ..].
  - destruct r as [x| | |]; cbn [effect] in Hrun;
      try (left; exact (proj2 Hrun)).
    destruct Hrun as [_ Hrun].
    destruct (mutating c).
    + right. destruct Hrun as (tasks & Hfile & Hsaves). now exists tasks.
    + left. exact (proj2 Hrun).
Qed.

Lemma X5_main_witness :
  snd (@main ascii_builtins ["task_cli.py"; "remove"; "1"] empty_world)
    = empty_world /\
  saves (snd (@main ascii_builtins ["task_cli.py"; " LIST "; "bogus"]
                (stored sample_tasks "2024-01-02T08:00:00")))
    = saves (stored sample_tasks "2024-01-02T08:00:00").
Proof.
  split.
  - apply (proj1 (@X5_main_saves_at_most_once ascii_builtins
                    ["task_cli.py"; "remove"; "1"] empty_world)
             (UnknownCommand "remove")).
    reflexivity.
  - apply (proj1 (proj2 (@X5_main_saves_at_most_once ascii_builtins
                           ["task_cli.py"; " LIST "; "bogus"]
                           (stored sample_tasks "2024-01-02T08:00:00")))).
    intros x. discriminate.
Defined.

(** ** Adding and deleting *)

Lemma find_task_last (tasks : list dict) (i : Z) (t : dict) :
  existsb (has_id i) tasks = false ->
  has_id i t = true ->
  find_task (tasks ++ [t]) i = Some (List.length tasks, t).
Proof.
  intros Hnone Ht. induction tasks as [|u tasks IH]; cbn in *.
  - unfold has_id in Ht. now rewrite Ht.
  - apply orb_false_iff in Hnone as [Hu Hnone].
    unfold has_id in Hu. rewrite Hu. now rewrite (IH Hnone).
Qed.

Lemma no_match_below (tasks : list dict) (i : Z) :
  integer_ids tasks ->
  Forall (fun n => n < i) (existing_ids tasks) ->
  existsb (has_id i) tasks = false.
Proof.
  induction tasks as [|t tasks IH]; intros Hint Hbelow; [reflexivity|].
  apply Forall_cons_iff in Hint as [Ht Hint].
  rewrite existing_ids_cons in Hbelow.
  destruct (as_int (py_get "id" t)) as [n|] eqn:Hn; [|contradiction].
  cbn [app] in Hbelow. apply Forall_cons_iff in Hbelow as [Hlt Hbelow].
  cbn [existsb]. rewrite (has_id_as_int i n t Hn), (IH Hint Hbelow).
  destruct (Z.eqb_spec n i); [lia | reflexivity].
Qed.

(** X6.  The id that [add] assigns is fresh: it differs from every integer
    id of the collection.  When all records carry integer ids, no record
    answers to the new id before the add, and after it [find_task] finds the
    new record, at the end of the collection. *)
Theorem X6_add_assigns_fresh_id `{PyBuiltins} (args : list string)
        (w w1 : world) (tasks : list dict) :
  args <> [] ->
  py_strip (join args) <> EmptyString ->
  load_tasks w = (Ok tasks, w1) ->
  fst (cmd_add args w) = Ok (Added (next_id tasks)) /\
  ~ In (next_id tasks) (existing_ids tasks) /\
  (integer_ids tasks ->
   existsb (has_id (next_id tasks)) tasks = false /\
   find_task (tasks_of (snd (cmd_add args w))) (next_id tasks) =
     Some (List.length tasks,
           new_task (next_id tasks) (py_strip (join args)) (clock w))).
Proof.
  intros Hargs Hdesc Hload.
  pose proof (cmd_add_run args w w1 tasks Hargs Hdesc Hload) as Hrun.
  cbn zeta in Hrun. rewrite Hrun. cbn [fst snd].
  destruct (next_id_above tasks) as [_ Habove].
  split; [reflexivity|]. split.
  - intros Hin. rewrite Forall_forall in Habove.
    specialize (Habove _ Hin). lia.
  - intros Hint.
    pose proof (no_match_below tasks (next_id tasks) Hint Habove) as Hnone.
    split; [exact Hnone|].
    rewrite tasks_of_saved. apply find_task_last; [exact Hnone|].
    unfold has_id. cbn. apply Z.eqb_refl.
Qed.

Lemma X6_add_witness :
  let w := stored sample_tasks "2024-01-02T08:00:00" in
  fst (@cmd_add ascii_builtins ["Iron"] w) = Ok (Added 4) /\
  find_task (tasks_of (snd (@cmd_add ascii_builtins ["Iron"] w))) 4 =
    Some (3%nat, new_task 4 "Iron" "2024-01-02T08:00:00").
Proof.
  intros w.
  destruct (@X6_add_assigns_fresh_id ascii_builtins ["Iron"] w w sample_tasks)
    as (Hres & _ & Hfresh).
  - discriminate.
  - discriminate.
  - reflexivity.
  - split; [exact Hres|].
    apply Hfresh. repeat constructor; discriminate.
Defined.

(** X7.  [delete] removes every record that answers to the id, not only
    the first: in any collection that holds at least one, it succeeds, the
    records it keeps are exactly those that do not answer to the id, in their
    order, and the collection gets shorter. *)
Theorem X7_delete_removes_every_match `{PyBuiltins} (tok : string) (i : Z)
        (w w1 : world) (tasks : list dict) :
  py_int tok = Some i -> 0 < i ->
  load_tasks w = (Ok tasks, w1) ->
  existsb (has_id i) tasks = true ->
  fst (cmd_delete [tok] w) = Ok (Deleted i) /\
  tasks_of (snd (cmd_delete [tok] w)) =
    filter (fun t => negb (has_id i t)) tasks /\
  existsb (has_id i) (tasks_of (snd (cmd_delete [tok] w))) = false /\
  (List.length (tasks_of (snd (cmd_delete [tok] w)))
   < List.length tasks)%nat.
Proof.
  intros Hint Hpos Hload Hex.
  rewrite (cmd_delete_checked tok i w w1 tasks), Hex by trivial.
  cbn [fst snd]. rewrite tasks_of_saved.
  split; [reflexivity|]. split; [reflexivity|]. split.
  - clear. induction tasks as [|t tasks IH]; [reflexivity|].
    cbn [filter]. destruct (has_id i t) eqn:Ht; cbn [negb]; [exact IH|].
    cbn [existsb]. now rewrite Ht.
  - clear - Hex. induction tasks as [|t tasks IH]; [discriminate|].
    cbn in Hex |- *. destruct (has_id i t); cbn in *.
    + pose proof (filter_length_le (fun u => negb (has_id i u)) tasks). lia.
    + specialize (IH Hex). lia.
Qed.

Lemma X7_delete_witness :
  tasks_of (snd (@cmd_delete ascii_builtins ["1"]
                   (stored duplicate_tasks "2024-01-02T08:00:00")))
  = [sample_task 2 "Clean" "todo"].
Proof.
  destruct (@X7_delete_removes_every_match ascii_builtins "1" 1
              (stored duplicate_tasks "2024-01-02T08:00:00")
              (stored duplicate_tasks "2024-01-02T08:00:00")
              duplicate_tasks eq_refl eq_refl eq_refl eq_refl)
    as (_ & Hkept & _).
  rewrite Hkept. reflexivity.
Defined.


Lemma load_tasks_at_time (now : string) (w w1 : world)
      (r : result (list dict)) :
  load_tasks w = (r, w1) -> load_tasks (at_time now w) = (r, at_time now w1).
Proof.
  rewrite !load_tasks_cases. unfold at_time. cbn [file clock log].
  destruct (file w) as [[|v]|] eqn:Hfile.
  - intros [= <- <-]. now rewrite Hfile.
  - destruct v; intros [= <- <-]; now rewrite Hfile.
  - now intros [= <- <-].
Qed.

Lemma load_tasks_saved (tasks : list dict) (c : string) (l : list io_event) :
  let w := {| file := Some (Decoded (JList (map JDict tasks)));
              clock := c; log := l |} in
  load_tasks w = (Ok tasks, w).
Proof.
  cbn zeta. rewrite load_tasks_cases. cbn [file].
  now rewrite only_dicts_map.
Qed.




(** ** What a session keeps *)

(** The status commands only ever store "in-progress" or "done". *)
Lemma run_marked_status `{PyBuiltins} (c : command) (args : list string)
      (w w' : world) (i : Z) (status : string) :
  run c args w = (Ok (Marked i status), w') ->
  status = "in-progress" \/ status = "done".
Proof.
  intros Hrun.
  destruct c; cbn [run] in Hrun;
    unfold cmd_add, cmd_update, cmd_delete, cmd_mark_in_progress,
      cmd_mark_done, mark, cmd_list, set_status, bind, exit, ret, now_iso,
      save_tasks in Hrun;
    run_cases Hrun; auto.
Qed.

Lemma well_formed_after_update (t : dict) (description ts : string) :
  well_formed_record t ->
  description <> EmptyString ->
  well_formed_record
    (dict_set "updatedAt" (JStr ts)
       (dict_set "description" (JStr description) t)).
Proof.
  intros (n & d & s & c & u & -> & Hpos & _ & Hstatus) Hdesc.
  exists n, description, s, c, ts. cbn. repeat split; trivial.
Qed.

Lemma well_formed_after_mark (t : dict) (status ts : string) :
  well_formed_record t ->
  In status VALID_STATUSES ->
  well_formed_record
    (dict_set "updatedAt" (JStr ts) (dict_set "status" (JStr status) t)).
Proof.
  intros (n & d & s & c & u & -> & Hpos & Hdesc & _) Hstatus.
  exists n, d, status, c, ts. cbn. repeat split; trivial.
Qed.

Lemma Forall_write_back (P : dict -> Prop) (tasks : list dict) (i : Z)
      (n : nat) (t t' : dict) :
  find_task tasks i = Some (n, t) ->
  Forall P tasks -> (P t -> P t') ->
  Forall P (write_back n t' tasks).
Proof.
  intros Hfind Hall Ht.
  destruct (find_task_some tasks i n t Hfind)
    as (before & after & -> & _ & _ & _ & Hwrite).
  rewrite Hwrite. apply Forall_app in Hall as [Hbefore Hrest].
  apply Forall_cons_iff in Hrest as [Hold Hafter].
  apply Forall_app. split; [exact Hbefore|].
  constructor; [now apply Ht | exact Hafter].
Qed.

(** One run keeps every record well formed. *)
Lemma run_well_formed `{PyBuiltins} (c : command) (args : list string)
      (w : world) :
  Forall well_formed_record (tasks_of w) ->
  Forall well_formed_record (tasks_of (snd (run c args w))).
Proof.
  intros Hall.
  destruct (run c args w) as [r w'] eqn:Hrun. cbn [snd].
  pose proof (run_transition c args w w' r Hrun) as Hstep.
  inversion Hstep as [tid d ts Htid Hdesc Hr Htasks
                     |i n t d ts Hpos Hfind Hdesc Hr Htasks
                     |i Hpos Hex Hr Htasks
                     |i n t status ts Hpos Hfind Hr Htasks
                     |r' Hstay Hr Htasks].
  - apply Forall_app. split; [exact Hall|].
    constructor; [|constructor].
    exists tid, d, "todo", ts, ts. repeat split; trivial.
    + subst tid. apply next_id_above.
    + cbn. auto.
  - apply (Forall_write_back _ _ i n t); trivial.
    intros Ht. now apply well_formed_after_update.
  - rewrite Forall_forall in *. intros t Hin.
    apply filter_In in Hin as [Hin _]. now apply Hall.
  - apply (Forall_write_back _ _ i n t); trivial.
    intros Ht. apply well_formed_after_mark; [exact Ht|].
    subst r. apply run_marked_status in Hrun as [->| ->]; cbn; auto.
  - congruence.
Qed.

(** X9.  Starting from the empty collection, whatever the invocations,
    every record the file ever holds is as [add] built it: the five fields
    "id", "description", "status", "createdAt", "updatedAt" in this order, a
    positive integer id, a description that is not empty, one of the three
    statuses, and two timestamps. *)
Theorem X9_records_stay_well_formed `{PyBuiltins} (invs : list invocation)
        (w : world) :
  tasks_of w = [] ->
  Forall well_formed_record (tasks_of (replay invs w)).
Proof.
  intros Hempty.
  assert (Hall : Forall well_formed_record (tasks_of w))
    by (rewrite Hempty; constructor).
  clear Hempty. revert w Hall.
  induction invs as [|[[c args] now] invs IH]; intros w Hall; cbn [replay].
  - exact Hall.
  - apply IH. unfold invoke. apply run_well_formed. exact Hall.
Qed.

Lemma X9_records_witness :
  Forall well_formed_record
    (tasks_of (@replay ascii_builtins scenario empty_world)).
Proof.
  apply (@X9_records_stay_well_formed ascii_builtins scenario empty_world).
  reflexivity.
Defined.

Lemma write_back_field (k : string) (tasks : list dict) (i : Z) (n : nat)
      (t t' : dict) :
  find_task tasks i = Some (n, t) ->
  py_get k t' = py_get k t ->
  map (py_get k) (write_back n t' tasks) = map (py_get k) tasks.
Proof.
  intros Hfind Hk.
  destruct (find_task_some tasks i n t Hfind)
    as (before & after & -> & _ & _ & _ & Hwrite).
  rewrite Hwrite, !map_app. cbn. now rewrite Hk.
Qed.

(** X10.  Only [add] and [delete] change which records there are.  After
    any other run ([update], a status command, [list], or any run that
    fails) the collection has the same records in the same order, each with
    the id and the [createdAt] it had. *)
Theorem X10_ids_and_creation_times_are_kept `{PyBuiltins} (c : command)
        (args : list string) (w w' : world) (r : result report) :
  run c args w = (r, w') ->
  (forall tid, r <> Ok (Added tid)) ->
  (forall tid, r <> Ok (Deleted tid)) ->
  List.length (tasks_of w') = List.length (tasks_of w) /\
  map (py_get "id") (tasks_of w') = map (py_get "id") (tasks_of w) /\
  map (py_get "createdAt") (tasks_of w')
    = map (py_get "createdAt") (tasks_of w).
Proof.
  intros Hrun Hadd Hdelete.
  apply run_transition in Hrun.
  assert (Hfields : forall k, k = "id" \/ k = "createdAt" ->
            map (py_get k) (tasks_of w') = map (py_get k) (tasks_of w)).
  { intros k Hk.
    destruct Hrun as [tid d ts _ _|i n t d ts _ Hfind _|i _ _
                     |i n t status ts _ Hfind|r _].
    - now destruct (Hadd tid).
    - apply (write_back_field k _ i n t _ Hfind).
      rewrite !py_get_set_other; [reflexivity | ..];
        destruct Hk as [->| ->]; discriminate.
    - now destruct (Hdelete i).
    - apply (write_back_field k _ i n t _ Hfind).
      rewrite !py_get_set_other; [reflexivity | ..];
        destruct Hk as [->| ->]; discriminate.
    - reflexivity. }
  split; [|split]; try (apply Hfields; auto).
  rewrite <- (length_map (py_get "id") (tasks_of w')), (Hfields "id") by auto.
  apply length_map.
Qed.

Lemma X10_ids_witness :
  let w := stored sample_tasks "2024-01-02T08:00:00" in
  map (py_get "id")
    (tasks_of (snd (@run ascii_builtins CmdMarkDone ["3"] w)))
  = [JInt 3; JInt 1; JInt 2].
Proof.
  intros w.
  destruct (@X10_ids_and_creation_times_are_kept ascii_builtins CmdMarkDone
              ["3"] w
              (snd (@run ascii_builtins CmdMarkDone ["3"] w))
              (fst (@run ascii_builtins CmdMarkDone ["3"] w))
              (surjective_pairing _)) as (_ & Hids & _).
  - intros tid. discriminate.
  - intros tid. discriminate.
  - rewrite Hids. reflexivity.
Defined.

(* ===================================================================== *)
(** ** More on the listing *)
(* ===================================================================== *)

Lemma insert_task_keyed (t : dict) (l : list dict) :
  as_int (sort_key t) <> None ->
  integer_keys l ->
  exists l',
    insert_task t l = Ok l' /\
    Permutation (t :: l) l' /\
    (StronglySorted key_le l -> StronglySorted key_le l') /\
    (forall k, filter (has_key k) l' = filter (has_key k) (t :: l)).
Proof.
  intros Ht. induction l as [|u l IH]; intros Hl.
  - exists [t]. cbn [insert_task]. repeat split; auto.
    intros _. repeat constructor.
  - apply Forall_cons_iff in Hl as [Hu Hl].
    destruct (IH Hl) as (l' & Hins & Hperm & Hsorted & Hstable).
    cbn [insert_task].
    assert (Hkt : as_int (sort_key t) = Some (key_of t))
      by (unfold key_of; destruct (as_int (sort_key t)); congruence).
    assert (Hku : as_int (sort_key u) = Some (key_of u))
      by (unfold key_of; destruct (as_int (sort_key u)); congruence).
    rewrite (py_lt_int _ _ _ _ Hku Hkt).
    destruct (Z.ltb_spec (key_of u) (key_of t)) as [Hlt|Hge].
    + rewrite Hins. exists (u :: l'). split; [reflexivity|]. split; [|split].
      * rewrite perm_swap. now constructor.
      * intros Hs. apply StronglySorted_inv in Hs as [Hs Hall].
        constructor; [now apply Hsorted|].
        apply (Permutation_Forall Hperm).
        constructor; [unfold key_le; lia | exact Hall].
      * intros k. cbn [filter]. rewrite Hstable. cbn [filter].
        destruct (has_key k u) eqn:Eu, (has_key k t) eqn:Et;
          try reflexivity.
        unfold has_key in Eu, Et.
        apply Z.eqb_eq in Eu. apply Z.eqb_eq in Et. lia.
    + exists (t :: u :: l). repeat split; trivial.
      intros Hs. constructor; [exact Hs|].
      pose proof (StronglySorted_inv Hs) as [_ Hall].
      constructor; [exact Hge|].
      eapply Forall_impl; [|exact Hall].
      unfold key_le. intros v Hv. lia.
Qed.

(** On integer keys the sort succeeds, orders by key and is stable. *)
Lemma sorted_by_id_keyed (tasks : list dict) :
  integer_keys tasks ->
  exists shown,
    sorted_by_id tasks = Ok shown /\
    Permutation tasks shown /\
    StronglySorted key_le shown /\
    (forall k, filter (has_key k) shown = filter (has_key k) tasks).
Proof.
  induction tasks as [|t tasks IH]; intros Hint.
  - exists []. repeat split; constructor.
  - apply Forall_cons_iff in Hint as [Ht Hint].
    destruct (IH Hint) as (rest & Hsort & Hperm & Hsorted & Hstable).
    assert (Hrest : integer_keys rest)
      by (apply (Permutation_Forall Hperm), Hint).
    destruct (insert_task_keyed t rest Ht Hrest)
      as (shown & Hins & Hperm' & Hsorted' & Hstable').
    exists shown. cbn [sorted_by_id]. rewrite Hsort.
    split; [exact Hins|]. split; [|split].
    + now rewrite <- Hperm', <- Hperm.
    + now apply Hsorted'.
    + intros k. rewrite Hstable'. cbn [filter]. now rewrite Hstable.
Qed.

Lemma show_keyed (selected : list dict) (w : world) :
  integer_keys selected ->
  exists shown,
    listing (fst (show selected w)) = Some shown /\
    Permutation selected shown /\
    StronglySorted key_le shown /\
    (forall k, filter (has_key k) shown = filter (has_key k) selected).
Proof.
  intros Hint. destruct selected as [|t selected].
  - exists []. repeat split; constructor.
  - destruct (sorted_by_id_keyed _ Hint)
      as (shown & Hsort & Hperm & Hsorted & Hstable).
    exists shown. unfold show. rewrite Hsort. now repeat split.
Qed.

Lemma integer_keys_filter (p : dict -> bool) (tasks : list dict) :
  integer_keys tasks -> integer_keys (filter p tasks).
Proof.
  unfold integer_keys. rewrite !Forall_forall. intros Hall t Hin.
  apply filter_In in Hin as [Hin _]. now apply Hall.
Qed.

(** X11.  A record without an id is listed under the key [10**9]: when
    every record has an integer id or no id at all, [list] succeeds and shows
    the selected records in ascending order of that key, so a record without
    an id comes after every record whose id is below [10**9]. *)
Theorem X11_list_sorts_missing_ids_as_1e9 `{PyBuiltins} (w w1 : world)
        (tasks : list dict) :
  load_tasks w = (Ok tasks, w1) ->
  integer_keys tasks ->
  (forall t, In t tasks -> dict_lookup "id" t = None -> key_of t = 10 ^ 9) /\
  (exists shown,
     listing (fst (cmd_list [] w)) = Some shown /\
     Permutation tasks shown /\
     StronglySorted key_le shown) /\
  (forall tok,
     valid_status (py_lower (py_strip tok)) = true ->
     exists shown,
       listing (fst (cmd_list [tok] w)) = Some shown /\
       Permutation
         (filter (has_status (py_lower (py_strip tok))) tasks) shown /\
       StronglySorted key_le shown).
Proof.
  intros Hload Hint.
  pose proof (fun args => cmd_list_checked args w w1 tasks Hload) as Hrun.
  split; [|split].
  - intros t _ Hnone. unfold key_of, sort_key, py_get_default.
    now rewrite Hnone.
  - rewrite Hrun.
    destruct (show_keyed tasks w1 Hint) as (shown & Hl & Hp & Hs & _).
    now exists shown.
  - intros tok Hvalid. rewrite Hrun, Hvalid.
    destruct (show_keyed _ w1 (integer_keys_filter
                (has_status (py_lower (py_strip tok))) tasks Hint))
      as (shown & Hl & Hp & Hs & _).
    now exists shown.
Qed.

Lemma X11_list_witness :
  listing (fst (@cmd_list ascii_builtins ["todo"]
                  (stored (no_id_task :: sample_tasks) "2024-01-02T08:00:00")))
  = Some [sample_task 2 "Clean" "todo"; sample_task 3 "Cook" "todo";
          no_id_task].
Proof.
  destruct (@X11_list_sorts_missing_ids_as_1e9 ascii_builtins
              (stored (no_id_task :: sample_tasks) "2024-01-02T08:00:00")
              (stored (no_id_task :: sample_tasks) "2024-01-02T08:00:00")
              (no_id_task :: sample_tasks) eq_refl)
    as (_ & _ & Hfiltered).
  - repeat constructor; discriminate.
  - destruct (Hfiltered "todo" eq_refl) as (shown & Hshown & _).
    rewrite Hshown. injection Hshown as <-. reflexivity.
Defined.

(** X12.  The sort is stable: when every record has an integer id or no id
    at all, the records that share a sort key are listed in the order in
    which the file holds them. *)
Theorem X12_list_is_stable `{PyBuiltins} (w w1 : world) (tasks : list dict) :
  load_tasks w = (Ok tasks, w1) ->
  integer_keys tasks ->
  exists shown,
    listing (fst (cmd_list [] w)) = Some shown /\
    forall k, filter (has_key k) shown = filter (has_key k) tasks.
Proof.
  intros Hload Hint.
  rewrite (cmd_list_checked [] w w1 tasks Hload).
  destruct (show_keyed tasks w1 Hint) as (shown & Hl & _ & _ & Hstable).
  now exists shown.
Qed.

Lemma X12_list_witness :
  exists shown,
    listing (fst (@cmd_list ascii_builtins []
                    (stored [sample_task 2 "Clean" "todo";
                             sample_task 1 "Second" "todo";
                             sample_task 1 "First" "done"]
                       "2024-01-02T08:00:00"))) = Some shown /\
    filter (has_key 1) shown =
      [sample_task 1 "Second" "todo"; sample_task 1 "First" "done"].
Proof.
  destruct (@X12_list_is_stable ascii_builtins
              (stored [sample_task 2 "Clean" "todo";
                       sample_task 1 "Second" "todo";
                       sample_task 1 "First" "done"] "2024-01-02T08:00:00")
              _ _ eq_refl) as (shown & Hshown & Hstable).
  - repeat constructor; discriminate.
  - exists shown. split; [exact Hshown|]. now rewrite Hstable.
Defined.

Lemma py_lt_null_left (b : json) : py_lt JNull b = Unorderable.
Proof. now destruct b. Qed.

Lemma py_lt_null_right (a : json) : py_lt a JNull = Unorderable.
Proof. now destruct a. Qed.

Lemma insert_null_key (t : dict) (l : list dict) :
  sort_key t = JNull -> l <> [] -> insert_task t l = TypeError.
Proof.
  intros Ht Hl. destruct l as [|u l]; [contradiction|].
  cbn [insert_task]. now rewrite Ht, py_lt_null_right.
Qed.

Lemma null_or_integer_split (tasks : list dict) :
  null_or_integer_keys tasks ->
  integer_keys tasks \/ exists t, In t tasks /\ sort_key t = JNull.
Proof.
  induction 1 as [|t tasks [Hnull|Hint] _ [IH|(u & Hin & Hu)]].
  - left. constructor.
  - right. exists t. split; [now left | exact Hnull].
  - right. exists t. split; [now left | exact Hnull].
  - left. now constructor.
  - right. exists u. split; [now right | exact Hu].
Qed.

(** With two records or more, one null id makes the sort raise. *)
Lemma sorted_by_id_null (tasks : list dict) :
  null_or_integer_keys tasks ->
  (exists t, In t tasks /\ sort_key t = JNull) ->
  (2 <= List.length tasks)%nat ->
  sorted_by_id tasks = TypeError.
Proof.
  induction tasks as [|t tasks IH]; intros Hkeys Hnull Hlen; cbn in Hlen;
    [lia|].
  apply Forall_cons_iff in Hkeys as [Ht Hkeys].
  cbn [sorted_by_id].
  destruct (null_or_integer_split tasks Hkeys) as [Hint|Hrest].
  - (* the tail sorts; the head is the null one *)
    destruct (sorted_by_id_keyed tasks Hint) as (rest & -> & Hperm & _).
    destruct Hnull as (u & [<-|Hin] & Hu).
    + apply insert_null_key; [exact Hu|].
      intros ->. apply Permutation_length in Hperm. cbn in Hperm. lia.
    + unfold integer_keys in Hint. rewrite Forall_forall in Hint.
      specialize (Hint u Hin). rewrite Hu in Hint. now destruct Hint.
  - destruct tasks as [|u [|v tasks]]; cbn in Hlen; [lia| |].
    + (* the tail is the single null record *)
      destruct Hrest as (x & [<-|[]] & Hx).
      cbn [sorted_by_id insert_task].
      now rewrite Hx, py_lt_null_left.
    + rewrite IH; trivial. cbn. lia.
Qed.

(** X13.  A null id breaks the listing: when the ids are integers or null,
    two records or more are selected and one of them has a null id, [list]
    ends in an uncaught [TypeError], after loading and without saving. *)
Theorem X13_list_raises_on_null_id `{PyBuiltins} (w w1 : world)
        (tasks : list dict) :
  load_tasks w = (Ok tasks, w1) ->
  null_or_integer_keys tasks ->
  (exists t, In t tasks /\ sort_key t = JNull) ->
  (2 <= List.length tasks)%nat ->
  cmd_list [] w = (TypeError, w1).
Proof.
  intros Hload Hkeys Hnull Hlen.
  rewrite (cmd_list_checked [] w w1 tasks Hload).
  destruct tasks as [|t tasks]; [cbn in Hlen; lia|].
  unfold show. now rewrite sorted_by_id_null.
Qed.

Lemma X13_list_witness :
  let w := stored (null_id_task :: sample_tasks) "2024-01-02T08:00:00" in
  @cmd_list ascii_builtins [] w = (TypeError, w).
Proof.
  intros w.
  apply (@X13_list_raises_on_null_id ascii_builtins w w
           (null_id_task :: sample_tasks) eq_refl).
  - apply Forall_cons; [now left|].
    repeat (apply Forall_cons; [right; discriminate|]). apply Forall_nil.
  - exists null_id_task. split; [now left | reflexivity].
  - cbn. lia.
Defined.

Lemma insert_task_front (t : dict) (l : list dict) :
  as_int (sort_key t) <> None ->
  integer_keys l ->
  Forall (fun u => key_of t <= key_of u) l ->
  insert_task t l = Ok (t :: l).
Proof.
  intros Ht Hl Hall. destruct l as [|u l]; [reflexivity|].
  apply Forall_cons_iff in Hl as [Hu _].
  apply Forall_cons_iff in Hall as [Hle _].
  cbn [insert_task].
  assert (Hkt : as_int (sort_key t) = Some (key_of t))
    by (unfold key_of; destruct (as_int (sort_key t)); congruence).
  assert (Hku : as_int (sort_key u) = Some (key_of u))
    by (unfold key_of; destruct (as_int (sort_key u)); congruence).
  rewrite (py_lt_int _ _ _ _ Hku Hkt).
  destruct (Z.ltb_spec (key_of u) (key_of t)); [lia | reflexivity].
Qed.

Lemma valid_collection_keys (tasks : list dict) :
  valid_collection tasks ->
  integer_keys tasks /\ map key_of tasks = map id_of tasks.
Proof.
  intros [Hint _]. induction Hint as [|t tasks (n & Hn & _) _ [IH1 IH2]].
  - split; constructor.
  - assert (Hkey : sort_key t = JInt n).
    { unfold sort_key, py_get_default. unfold py_get in Hn.
      destruct (dict_lookup "id" t); [exact Hn | discriminate]. }
    split.
    + constructor; [rewrite Hkey; discriminate | exact IH1].
    + cbn [map]. rewrite IH2. f_equal.
      unfold key_of, id_of. now rewrite Hkey, Hn.
Qed.

(** A collection in ascending order of its keys is its own sorted form. *)
Lemma sorted_by_id_sorted (tasks : list dict) :
  integer_keys tasks ->
  StronglySorted Z.le (map key_of tasks) ->
  sorted_by_id tasks = Ok tasks.
Proof.
  induction tasks as [|t tasks IH]; intros Hint Hsorted; [reflexivity|].
  apply Forall_cons_iff in Hint as [Ht Hint].
  cbn [map] in Hsorted. apply StronglySorted_inv in Hsorted as [Hs Hall].
  cbn [sorted_by_id]. rewrite (IH Hint Hs).
  apply insert_task_front; trivial.
  rewrite Forall_map in Hall. exact Hall.
Qed.

Lemma sorted_lt_le (ids : list Z) :
  StronglySorted Z.lt ids -> StronglySorted Z.le ids.
Proof.
  induction 1 as [|i ids _ IH Hall]; constructor; [exact IH|].
  eapply Forall_impl; [|exact Hall]. cbn. intros; lia.
Qed.

(** X14.  For the collections the program builds itself, the listing is the
    stored order: the ids grow along the file, so [list] shows the records
    exactly as the file holds them, and a filtered [list] shows the matching
    ones in that order. *)
Theorem X14_list_shows_insertion_order `{PyBuiltins} (w w1 : world)
        (tasks : list dict) :
  load_tasks w = (Ok tasks, w1) ->
  valid_collection tasks ->
  listing (fst (cmd_list [] w)) = Some tasks /\
  (forall tok,
     valid_status (py_lower (py_strip tok)) = true ->
     listing (fst (cmd_list [tok] w)) =
       Some (filter (has_status (py_lower (py_strip tok))) tasks)).
Proof.
  intros Hload Hvalid.
  assert (Hshow : forall p, listing (fst (show (filter p tasks) w1))
                            = Some (filter p tasks)).
  { intros p.
    destruct (valid_collection_keys tasks Hvalid) as [Hint Hkeys].
    assert (Hsort : sorted_by_id (filter p tasks) = Ok (filter p tasks)).
    { apply sorted_by_id_sorted; [now apply integer_keys_filter|].
      apply sorted_lt_le.
      destruct Hvalid as [_ Hsorted]. rewrite <- Hkeys in Hsorted.
      now apply sorted_map_filter. }
    unfold show. destruct (filter p tasks); [reflexivity|].
    now rewrite Hsort. }
  split.
  - rewrite (cmd_list_checked [] w w1 tasks Hload).
    specialize (Hshow (fun _ => true)).
    rewrite filter_all_true in Hshow; [exact Hshow|].
    now apply forallb_forall.
  - intros tok Hok.
    rewrite (cmd_list_checked [tok] w w1 tasks Hload), Hok.
    apply Hshow.
Qed.

Lemma X14_list_witness :
  let w := @replay ascii_builtins scenario empty_world in
  listing (fst (@cmd_list ascii_builtins [] w)) = Some (tasks_of w).
Proof.
  intros w.
  apply (@X14_list_shows_insertion_order ascii_builtins w w (tasks_of w)).
  - reflexivity.
  - split.
    + repeat constructor; eexists; split; try reflexivity; reflexivity.
    + repeat constructor.
Defined.

(* ===================================================================== *)
(** ** More on [next_id] and on repeated updates *)
(* ===================================================================== *)

Lemma fold_max_perm (ids ids' : list Z) (a : Z) :
  Permutation ids ids' -> fold_left Z.max ids a = fold_left Z.max ids' a.
Proof.
  intros Hperm. revert a.
  induction Hperm as [|x l l' _ IH|x y l|l l' l'' _ IH1 _ IH2]; intros a; cbn.
  - reflexivity.
  - apply IH.
  - f_equal. lia.
  - now rewrite IH1.
Qed.

Lemma existing_ids_perm (tasks tasks' : list dict) :
  Permutation tasks tasks' ->
  Permutation (existing_ids tasks) (existing_ids tasks').
Proof.
  induction 1 as [|t l l' _ IH|t u l|l l' l'' _ IH1 _ IH2].
  - constructor.
  - rewrite !existing_ids_cons. now apply Permutation_app_head.
  - rewrite !existing_ids_cons, !app_assoc.
    apply Permutation_app_tail, Permutation_app_comm.
  - now rewrite IH1.
Qed.

(** X15.  [next_id] depends on the integer ids only, not on their order:
    two collections with the same integer ids get the same next id, so the
    order of the file does not matter and records whose id is missing, null,
    a string or a float are ignored. *)
Theorem X15_next_id_reads_integer_ids_only (tasks tasks' : list dict) :
  (Permutation (existing_ids tasks) (existing_ids tasks') ->
   next_id tasks = next_id tasks') /\
  (Permutation tasks tasks' -> next_id tasks = next_id tasks') /\
  (forall t, as_int (py_get "id" t) = None ->
     next_id (tasks ++ t :: tasks') = next_id (tasks ++ tasks')).
Proof.
  assert (Hids : forall l l',
            Permutation (existing_ids l) (existing_ids l') ->
            next_id l = next_id l').
  { intros l l' Hperm. rewrite !next_id_fold. f_equal.
    now apply fold_max_perm. }
  split; [apply Hids|]. split.
  - intros Hperm. now apply Hids, existing_ids_perm.
  - intros t Ht. apply Hids.
    rewrite !existing_ids_app, existing_ids_cons, Ht. reflexivity.
Qed.

Lemma X15_next_id_witness :
  next_id
    ([sample_task 2 "Clean" "todo"]
     ++ [("id", JStr "9"); ("description", JStr "Cook")]
     :: [sample_task 1 "Buy milk" "done"])
  = next_id [sample_task 1 "Buy milk" "done"; sample_task 2 "Clean" "todo"].
Proof.
  transitivity (next_id ([sample_task 2 "Clean" "todo"]
                         ++ [sample_task 1 "Buy milk" "done"])).
  - exact (proj2 (proj2 (X15_next_id_reads_integer_ids_only
                           [sample_task 2 "Clean" "todo"]
                           [sample_task 1 "Buy milk" "done"]))
             [("id", JStr "9"); ("description", JStr "Cook")] eq_refl).
  - apply (proj1 (proj2 (X15_next_id_reads_integer_ids_only _ _))).
    apply perm_swap.
Defined.

Lemma dict_set_twice (k : string) (v1 v2 : json) (d : dict) :
  dict_set k v2 (dict_set k v1 d) = dict_set k v2 d.
Proof.
  induction d as [|[k' v'] d IH]; cbn.
  - now rewrite String.eqb_refl.
  - destruct (String.eqb k' k) eqn:Hk; cbn; rewrite Hk;
      [reflexivity | now rewrite IH].
Qed.

(** Assignments to two different keys commute when the first key is already
    there (otherwise the order of the new keys would differ). *)
Lemma dict_set_swap (k1 k2 : string) (v1 v2 : json) (d : dict) :
  k1 <> k2 ->
  dict_lookup k1 d <> None ->
  dict_set k1 v1 (dict_set k2 v2 d) = dict_set k2 v2 (dict_set k1 v1 d).
Proof.
  intros Hneq. induction d as [|[k v] d IH]; cbn; [congruence|].
  destruct (String.eqb_spec k k1) as [->|Hk1]; intros Hin.
  - destruct (String.eqb_spec k1 k2) as [|_]; [contradiction|].
    cbn. rewrite String.eqb_refl.
    destruct (String.eqb_spec k1 k2); [contradiction | reflexivity].
  - destruct (String.eqb_spec k k2) as [->|Hk2]; cbn.
    + destruct (String.eqb_spec k2 k1); [congruence|].
      now rewrite String.eqb_refl.
    + destruct (String.eqb_spec k k1); [contradiction|].
      destruct (String.eqb_spec k k2); [contradiction|].
      now rewrite IH.
Qed.

Lemma find_task_write_back (tasks : list dict) (i : Z) (n : nat)
      (t t' : dict) :
  find_task tasks i = Some (n, t) ->
  py_get "id" t' = py_get "id" t ->
  find_task (write_back n t' tasks) i = Some (n, t').
Proof.
  revert n. induction tasks as [|u tasks IH]; intros n; cbn; [discriminate|].
  destruct (py_eq_int (py_get "id" u) i) eqn:Hu.
  - intros [= <- <-] Hid. cbn. now rewrite Hid, Hu.
  - destruct (find_task tasks i) as [[m v]|] eqn:Hrest; [|discriminate].
    intros [= <- <-] Hid. cbn. rewrite Hu.
    now rewrite (IH m eq_refl Hid).
Qed.

Lemma write_back_twice (tasks : list dict) (n : nat) (t1 t2 : dict) :
  write_back n t2 (write_back n t1 tasks) = write_back n t2 tasks.
Proof.
  revert n. induction tasks as [|u tasks IH]; intros [|n]; cbn;
    try reflexivity.
  now rewrite IH.
Qed.

(** Two rounds of the same two assignments leave what the second round
    alone leaves. *)
Lemma assign2_twice (k : string) (v1 v2 u1 u2 : json) (t : dict) :
  k <> "updatedAt" ->
  assign2 k v2 "updatedAt" u2 (assign2 k v1 "updatedAt" u1 t) =
  assign2 k v2 "updatedAt" u2 t.
Proof.
  intros Hk. unfold assign2.
  rewrite (dict_set_swap k "updatedAt" v2 u1 (dict_set k v1 t) Hk)
    by (rewrite dict_lookup_set_same; discriminate).
  now rewrite !dict_set_twice.
Qed.

(** X16.  The last write wins: two successive updates of the same task
    leave the file as the second update alone would have left it (same
    description, same [updatedAt], everything else untouched), and likewise
    two successive status changes. *)
Theorem X16_last_write_wins `{PyBuiltins} (tok : string) (i : Z)
        (w w1 : world) (tasks : list dict) (now : string) :
  py_int tok = Some i -> 0 < i ->
  load_tasks w = (Ok tasks, w1) ->
  existsb (has_id i) tasks = true ->
  (forall rest rest',
     rest <> [] -> py_strip (join rest) <> EmptyString ->
     rest' <> [] -> py_strip (join rest') <> EmptyString ->
     fst (cmd_update (tok :: rest')
            (at_time now (snd (cmd_update (tok :: rest) w))))
       = Ok (Updated i) /\
     file (snd (cmd_update (tok :: rest')
                  (at_time now (snd (cmd_update (tok :: rest) w))))) =
     file (snd (cmd_update (tok :: rest') (at_time now w)))) /\
  (forall status status',
     fst (mark status' [tok] (at_time now (snd (mark status [tok] w))))
       = Ok (Marked i status') /\
     file (snd (mark status' [tok] (at_time now (snd (mark status [tok] w)))))
       = file (snd (mark status' [tok] (at_time now w)))).
Proof.
  intros Hint Hpos Hload Hex.
  destruct (existsb_found tasks i Hex) as (n & t & Hfind).
  pose proof (load_tasks_at_time now w w1 _ Hload) as Hload'.
  split.
  - intros rest rest' Hrest Hdesc Hrest' Hdesc'.
    rewrite (cmd_update_checked tok rest i w w1 tasks), Hfind by trivial.
    cbn zeta. cbn [snd]. unfold at_time at 1 2. cbn [file clock log].
    fold (assign2 "description" (JStr (py_strip (join rest)))
            "updatedAt" (JStr (clock w)) t).
    set (t1 := assign2 "description" (JStr (py_strip (join rest)))
                 "updatedAt" (JStr (clock w)) t).
    assert (Hid : py_get "id" t1 = py_get "id" t)
      by (apply assign2_keeps_id; discriminate).
    rewrite (cmd_update_checked tok rest' i _ _ (write_back n t1 tasks)
               Hrest' Hint Hpos Hdesc' (load_tasks_saved _ _ _)).
    rewrite (find_task_write_back tasks i n t t1 Hfind Hid).
    rewrite (cmd_update_checked tok rest' i _ _ tasks
               Hrest' Hint Hpos Hdesc' Hload'), Hfind.
    cbn zeta. cbn [fst snd file clock at_time]. split; [reflexivity|].
    rewrite write_back_twice.
    fold (assign2 "description" (JStr (py_strip (join rest')))
            "updatedAt" (JStr now) t1).
    fold (assign2 "description" (JStr (py_strip (join rest')))
            "updatedAt" (JStr now) t).
    unfold t1. now rewrite assign2_twice by discriminate.
  - intros status status'.
    rewrite (mark_checked status tok i w w1 tasks), Hfind by trivial.
    cbn zeta. cbn [snd]. unfold at_time at 1 2. cbn [file clock log].
    fold (assign2 "status" (JStr status) "updatedAt" (JStr (clock w)) t).
    set (t1 := assign2 "status" (JStr status) "updatedAt" (JStr (clock w)) t).
    assert (Hid : py_get "id" t1 = py_get "id" t)
      by (apply assign2_keeps_id; discriminate).
    rewrite (mark_checked status' tok i _ _ (write_back n t1 tasks)
               Hint Hpos (load_tasks_saved _ _ _)).
    rewrite (find_task_write_back tasks i n t t1 Hfind Hid).
    rewrite (mark_checked status' tok i _ _ tasks Hint Hpos Hload'), Hfind.
    cbn zeta. cbn [fst snd file clock at_time]. split; [reflexivity|].
    rewrite write_back_twice.
    fold (assign2 "status" (JStr status') "updatedAt" (JStr now) t1).
    fold (assign2 "status" (JStr status') "updatedAt" (JStr now) t).
    unfold t1. now rewrite assign2_twice by discriminate.
Qed.

Lemma X16_last_write_witness :
  let w := stored sample_tasks "2024-01-02T08:00:00" in
  file (snd (@cmd_update ascii_builtins ["2"; "Clean"; "windows"]
               (at_time "2024-01-02T09:00:00"
                  (snd (@cmd_update ascii_builtins ["2"; "Clean floor"] w)))))
  = file (snd (@cmd_update ascii_builtins ["2"; "Clean"; "windows"]
                 (at_time "2024-01-02T09:00:00" w))).
Proof.
  intros w.
  destruct (@X16_last_write_wins ascii_builtins "2" 2 w w sample_tasks
              "2024-01-02T09:00:00" eq_refl eq_refl eq_refl eq_refl)
    as [Hupdate _].
  apply (Hupdate ["Clean floor"] ["Clean"; "windows"]); discriminate.
Defined.

(* ===================================================================== *)
(** ** Timestamps *)
(* ===================================================================== *)

Lemma In_write_back (tasks : list dict) (i : Z) (n : nat) (t x t' : dict) :
  find_task tasks i = Some (n, t) ->
  In t' (write_back n x tasks) ->
  In t' tasks \/ (t' = x /\ In t tasks).
Proof.
  intros Hfind.
  destruct (find_task_some tasks i n t Hfind)
    as (before & after & -> & _ & _ & _ & Hwrite).
  rewrite Hwrite, !in_app_iff. cbn.
  intros [Hin|[<-|Hin]]; auto.
Qed.

(** Where the records of the collection come from after one run: a record
    is one that was there, or the one [add] built at the current time, or one
    that was there with a field and [updatedAt] assigned at the current
    time. *)
Lemma run_provenance `{PyBuiltins} (c : command) (args : list string)
      (w w' : world) (r : result report) (t' : dict) :
  run c args w = (r, w') ->
  In t' (tasks_of w') ->
  In t' (tasks_of w) \/
  (exists tid description, t' = new_task tid description (clock w)) \/
  (exists t k v,
     In t (tasks_of w) /\ k <> "createdAt" /\
     t' = assign2 k v "updatedAt" (JStr (clock w)) t).
Proof.
  intros Hrun.
  destruct c; cbn [run] in Hrun;
    unfold cmd_add, cmd_update, cmd_delete, cmd_mark_in_progress,
      cmd_mark_done, mark, cmd_list, set_status, bind, exit, ret, now_iso,
      save_tasks in Hrun;
    run_cases Hrun;
    try (left; assumption);
    try (match goal with
         | Hload : load_tasks _ = _ |- _ =>
             rewrite (load_tasks_same_tasks _ _ _ Hload); now left
         end);
    rewrite tasks_of_saved;
    match goal with
    | Hload : load_tasks _ = (Ok _, _) |- _ =>
        apply load_tasks_ok in Hload as (Htasks & Hclock & _);
        rewrite ?Hclock; subst
    end.
  - (* add *)
    rewrite in_app_iff. cbn. intros [Hin|[<-|[]]]; [now left|].
    right. left. eauto.
  - (* update *)
    intros Hin.
    match goal with
    | Hfind : find_task _ _ = Some _ |- _ =>
        destruct (In_write_back _ _ _ _ _ _ Hfind Hin) as [Hold|[-> Hold]]
    end; [now left|].
    right. right. eexists _, "description", _.
    split; [exact Hold|]. split; [discriminate | reflexivity].
  - (* delete *)
    intros Hin. apply filter_In in Hin as [Hin _]. now left.
  - (* mark-in-progress *)
    intros Hin.
    match goal with
    | Hfind : find_task _ _ = Some _ |- _ =>
        destruct (In_write_back _ _ _ _ _ _ Hfind Hin) as [Hold|[-> Hold]]
    end; [now left|].
    right. right. eexists _, "status", _.
    split; [exact Hold|]. split; [discriminate | reflexivity].
  - (* mark-done *)
    intros Hin.
    match goal with
    | Hfind : find_task _ _ = Some _ |- _ =>
        destruct (In_write_back _ _ _ _ _ _ Hfind Hin) as [Hold|[-> Hold]]
    end; [now left|].
    right. right. eexists _, "status", _.
    split; [exact Hold|]. split; [discriminate | reflexivity].
Qed.

Lemma string_compare_refl (s : string) : String.compare s s = Eq.
Proof.
  induction s as [|c s IH]; cbn; [reflexivity|].
  unfold Ascii.compare. now rewrite N.compare_refl.
Qed.

Lemma string_leb_refl (s : string) : String.leb s s = true.
Proof. unfold String.leb. now rewrite string_compare_refl. Qed.

(** One run at a time that is not before any creation time keeps the
    records timely, and every creation time is one that was there or the
    current time. *)
Lemma run_timely `{PyBuiltins} (Q : string -> Prop) (c : command)
      (args : list string) (w : world) :
  (forall s, Q s -> String.leb s (clock w) = true) ->
  Q (clock w) ->
  Forall (fun t => timely t /\
                   forall s, py_get "createdAt" t = JStr s -> Q s)
    (tasks_of w) ->
  Forall (fun t => timely t /\
                   forall s, py_get "createdAt" t = JStr s -> Q s)
    (tasks_of (snd (run c args w))).
Proof.
  intros Hbefore Hnow Hall.
  destruct (run c args w) as [r w'] eqn:Hrun. cbn [snd].
  rewrite Forall_forall in *. intros t' Hin.
  destruct (run_provenance c args w w' r t' Hrun Hin)
    as [Hold|[(tid & d & ->)|(t & k & v & Hold & Hk & ->)]].
  - now apply Hall.
  - split.
    + exists (clock w), (clock w). repeat split. apply string_leb_refl.
    + cbn. now intros s [= <-].
  - destruct (Hall t Hold) as [(created & updated & Hc & _ & _) HQ].
    assert (Hkept : py_get "createdAt"
                      (assign2 k v "updatedAt" (JStr (clock w)) t)
                    = JStr created).
    { unfold assign2.
      rewrite !py_get_set_other by (try discriminate; congruence).
      exact Hc. }
    split.
    + exists created, (clock w). split; [exact Hkept|]. split.
      * apply py_get_set_same.
      * apply Hbefore, HQ, Hc.
    + intros s Hs. rewrite Hkept in Hs. injection Hs as <-. now apply HQ.
Qed.

(** X17.  When the clock never goes back from one invocation to the next,
    every record of a session that starts from the empty collection has
    string timestamps with [createdAt] not after [updatedAt]. *)
Theorem X17_created_not_after_updated `{PyBuiltins} (invs : list invocation)
        (w : world) :
  tasks_of w = [] ->
  monotone_clock invs ->
  Forall timely (tasks_of (replay invs w)).
Proof.
  intros Hempty Hmono.
  enough (Hgen : forall invs w,
            monotone_clock invs ->
            Forall (fun t => timely t /\
                      forall s, py_get "createdAt" t = JStr s ->
                        Forall (fun now => String.leb s now = true)
                          (map snd invs))
              (tasks_of w) ->
            Forall timely (tasks_of (replay invs w))).
  { apply Hgen; [exact Hmono|]. rewrite Hempty. constructor. }
  clear. intros invs. induction invs as [|[[c args] now] invs IH];
    intros w Hmono Hall; cbn [replay].
  - eapply Forall_impl; [|exact Hall]. now intros t [Ht _].
  - unfold monotone_clock in Hmono. cbn [map snd] in Hmono.
    apply StronglySorted_inv in Hmono as [Hmono Hnow].
    apply IH; [exact Hmono|].
    unfold invoke.
    pose proof (run_timely
      (fun s => String.leb s now = true /\
                Forall (fun n => String.leb s n = true) (map snd invs))
      c args {| file := file w; clock := now; log := log w |}) as Hstep.
    cbn [clock] in Hstep.
    eapply Forall_impl; [|apply Hstep].
    + cbn. intros t [Ht HQ]. split; [exact Ht|].
      intros s Hs. exact (proj2 (HQ s Hs)).
    + now intros s [Hs _].
    + split; [apply string_leb_refl | exact Hnow].
    + eapply Forall_impl; [|exact Hall].
      cbn. intros t [Ht HQ]. split; [exact Ht|].
      intros s Hs. specialize (HQ s Hs). cbn [map snd] in HQ.
      apply Forall_cons_iff in HQ. exact HQ.
Qed.

Lemma X17_timestamps_witness :
  Forall timely (tasks_of (@replay ascii_builtins scenario empty_world)).
Proof.
  apply (@X17_created_not_after_updated ascii_builtins scenario empty_world).
  - reflexivity.
  - unfold monotone_clock, scenario. cbn [map snd].
    repeat constructor.
Defined.

(* ===================================================================== *)
(** ** Outcomes by command *)
(* ===================================================================== *)





(* ===================================================================== *)
(** ** Filtered and unfiltered listings *)
(* ===================================================================== *)

Lemma key_le_filter (p : dict -> bool) (t : dict) (l : list dict) :
  Forall (key_le t) l -> Forall (key_le t) (filter p l).
Proof.
  rewrite !Forall_forall. intros Hall u Hin.
  apply filter_In in Hin as [Hin _]. now apply Hall.
Qed.

(** Inserting into a sorted list and then selecting is selecting and then
    inserting. *)
Lemma insert_task_filter (p : dict -> bool) (t : dict) (l l1 : list dict) :
  as_int (sort_key t) <> None ->
  integer_keys l ->
  StronglySorted key_le l ->
  insert_task t l = Ok l1 ->
  if p t then insert_task t (filter p l) = Ok (filter p l1)
  else filter p l1 = filter p l.
Proof.
  intros Ht. revert l1.
  induction l as [|u l IH]; intros l1 Hl Hs Hins.
  - cbn in Hins. injection Hins as <-. cbn. now destruct (p t).
  - apply Forall_cons_iff in Hl as [Hu Hl].
    apply StronglySorted_inv in Hs as [Hs Hall].
    assert (Hkt : as_int (sort_key t) = Some (key_of t))
      by (unfold key_of; destruct (as_int (sort_key t)); congruence).
    assert (Hku : as_int (sort_key u) = Some (key_of u))
      by (unfold key_of; destruct (as_int (sort_key u)); congruence).
    cbn [insert_task] in Hins. rewrite (py_lt_int _ _ _ _ Hku Hkt) in Hins.
    destruct (Z.ltb_spec (key_of u) (key_of t)) as [Hlt|Hge].
    + destruct (insert_task t l) as [l2| | |] eqn:Hrest; try discriminate.
      injection Hins as <-.
      specialize (IH l2 Hl Hs eq_refl).
      cbn [filter]. destruct (p t), (p u); trivial.
      * cbn [insert_task]. rewrite (py_lt_int _ _ _ _ Hku Hkt).
        destruct (Z.ltb_spec (key_of u) (key_of t)); [|lia].
        now rewrite IH.
      * now rewrite IH.
    + injection Hins as <-. cbn [filter].
      destruct (p t) eqn:Hpt; [|reflexivity].
      change (if p u then u :: filter p l else filter p l)
        with (filter p (u :: l)).
      apply insert_task_front; trivial.
      * now apply integer_keys_filter; constructor.
      * apply (key_le_filter p t (u :: l)).
        constructor; [exact Hge|].
        eapply Forall_impl; [|exact Hall].
        unfold key_le. intros v Hv. lia.
Qed.

(** Sorting a selection gives the selection of the sorted list. *)
Lemma sorted_by_id_filter (p : dict -> bool) (tasks shown : list dict) :
  integer_keys tasks ->
  sorted_by_id tasks = Ok shown ->
  sorted_by_id (filter p tasks) = Ok (filter p shown).
Proof.
  revert shown. induction tasks as [|t tasks IH]; intros shown Hint Hsort.
  - cbn in Hsort. injection Hsort as <-. reflexivity.
  - apply Forall_cons_iff in Hint as [Ht Hint].
    destruct (sorted_by_id_keyed tasks Hint)
      as (rest & Hrest & Hperm & Hsorted & _).
    cbn [sorted_by_id] in Hsort. rewrite Hrest in Hsort.
    assert (Hkeys : integer_keys rest)
      by (apply (Permutation_Forall Hperm), Hint).
    pose proof (insert_task_filter p t rest shown Ht Hkeys Hsorted Hsort)
      as Hins.
    cbn [filter]. destruct (p t).
    + cbn [sorted_by_id]. now rewrite (IH rest Hint Hrest).
    + rewrite Hins. now apply IH.
Qed.

(** X19.  A filtered listing is the full listing with the other records
    left out: when every record has an integer id or no id at all, [list]
    with a status shows exactly the records of that status that [list]
    without a filter shows, in the same order. *)
Theorem X19_filtered_listing_is_part_of_full_listing `{PyBuiltins}
        (w w1 : world) (tasks : list dict) (tok : string) :
  load_tasks w = (Ok tasks, w1) ->
  integer_keys tasks ->
  valid_status (py_lower (py_strip tok)) = true ->
  listing (fst (cmd_list [tok] w)) =
  option_map (filter (has_status (py_lower (py_strip tok))))
    (listing (fst (cmd_list [] w))).
Proof.
  intros Hload Hint Hvalid.
  rewrite !(cmd_list_checked _ w w1 tasks Hload), Hvalid.
  set (p := has_status (py_lower (py_strip tok))).
  destruct (sorted_by_id_keyed tasks Hint) as (shown & Hsort & _).
  pose proof (sorted_by_id_filter p tasks shown Hint Hsort) as Hfiltered.
  assert (Hall : listing (fst (show tasks w1)) = Some shown).
  { unfold show. destruct tasks; [|now rewrite Hsort].
    cbn in Hsort. now injection Hsort as <-. }
  rewrite Hall. cbn [option_map].
  unfold show. destruct (filter p tasks) eqn:Hsel.
  - cbn in Hfiltered. now injection Hfiltered as <-.
  - now rewrite Hfiltered.
Qed.

Lemma X19_filtered_listing_witness :
  let w := stored (no_id_task :: sample_tasks) "2024-01-02T08:00:00" in
  listing (fst (@cmd_list ascii_builtins ["Done"] w)) =
  option_map (filter (has_status "done"))
    (listing (fst (@cmd_list ascii_builtins [] w))).
Proof.
  intros w.
  apply (@X19_filtered_listing_is_part_of_full_listing ascii_builtins w w
           (no_id_task :: sample_tasks) "Done").
  - reflexivity.
  - repeat constructor; discriminate.
  - reflexivity.
Defined.
